(** * model/dataset.py : the partition selector [Dataset]

    A shallow embedding of the class [Dataset] of [model/dataset.py] and the
    properties of its five resolvers ([get_train_ds], [get_val_ds],
    [get_test_dummy_db_ds], [get_test_query_db_ds], [get_custom_db_ds]).

    - Python [str] is [string]; a character is a code point below 256, and
      the order of [sorted] on [str] is the code-point order [String.leb].
    - Python [int] is [Z]; the pass-through floats ([DUR], [HOP],
      [reduce_items_p]) are [Q]: the class never computes with them.
    - The instance is a record of its attributes; the seventeen file-list
      attributes live in a store indexed by their names.
    - Methods run in a state-and-exception monad over the instance and the
      log of the [glob.glob] patterns scanned so far.  A raised exception
      keeps the state reached when it was raised, as in Python. *)

From Stdlib Require Import List String Ascii Bool ZArith QArith Lia.
From Stdlib Require Import Sorted Permutation Mergesort Orders.
Import ListNotations.

Local Open Scope string_scope.
Local Open Scope Z_scope.

(** ** Python values *)

(** The values that a keyword argument or an attribute of the instance can
    hold. *)
#[warnings="-register-all"]
Inductive value : Type :=
| VNone
| VBool (b : bool)
| VInt (n : Z)
| VFloat (q : Q)
| VStr (s : string)
| VList (l : list value).

(** [bool(v)], the truth value tested by [if v:]. *)
Definition truthy (v : value) : bool :=
  match v with
  | VNone => false
  | VBool b => b
  | VInt n => negb (n =? 0)
  | VFloat q => negb (Qeq_bool q 0)
  | VStr s => negb (String.eqb s "")
  | VList l => match l with [] => false | _ :: _ => true end
  end.

(** [v is True]. *)
Definition is_True (v : value) : bool :=
  match v with
  | VBool true => true
  | _ => false
  end.

(** A file list, or [None], as a value. *)
Definition files_value (fps : option (list string)) : value :=
  match fps with
  | None => VNone
  | Some l => VList (map VStr l)
  end.

Definition ints_value (l : list Z) : value := VList (map VInt l).

(** ** Exceptions *)

Inductive exn : Type :=
| NotImplementedError (arg : string)
| AttributeError (name : string)
| OSError (path : string)
| UnicodeDecodeError (path : string)
| TypeError
| ValueError (arg : string).

(** ** Strings *)

(** [c.isnumeric()] for a code point below 256: the decimal digits, the
    superscripts two, three and one (U+00B2, U+00B3, U+00B9) and the
    fractions one quarter, one half and three quarters (U+00BC..U+00BE). *)
Definition char_isnumeric (c : ascii) : bool :=
  let n := N_of_ascii c in
  ((48 <=? n) && (n <=? 57) || (n =? 178) || (n =? 179) || (n =? 185)
   || (188 <=? n) && (n <=? 190))%N.

Fixpoint all_chars (p : ascii -> bool) (s : string) : bool :=
  match s with
  | EmptyString => true
  | String c s' => p c && all_chars p s'
  end.

(** [s.isnumeric()]: at least one character, all of them numeric. *)
Definition isnumeric (s : string) : bool :=
  match s with
  | EmptyString => false
  | String _ _ => all_chars char_isnumeric s
  end.

Definition char_isdigit (c : ascii) : bool :=
  let n := N_of_ascii c in ((48 <=? n) && (n <=? 57))%N.

Fixpoint decimal_digits (s : string) (acc : Z) : Z :=
  match s with
  | EmptyString => acc
  | String c s' => decimal_digits s' (10 * acc + (Z.of_N (N_of_ascii c) - 48))
  end.

(** [int(v)].  On a string, the plain decimal literals only (a sign and
    ASCII digits); surrounding white space and underscores are not
    covered. *)
Definition py_int (v : value) : exn + Z :=
  match v with
  | VInt n => inr n
  | VBool b => inr (if b then 1 else 0)
  | VStr s =>
      let body := match s with
                  | String "-" s' => s'
                  | String "+" s' => s'
                  | _ => s
                  end in
      let sign := match s with String "-" _ => -1 | _ => 1 end in
      match body with
      | EmptyString => inl (ValueError s)
      | _ => if all_chars char_isdigit body
             then inr (sign * decimal_digits body 0)
             else inl (ValueError s)
      end
  | _ => inl TypeError
  end.

(** [l[:n]]: a negative bound counts from the end of the list. *)
Definition slice_to {A : Type} (l : list A) (n : Z) : list A :=
  if 0 <=? n then firstn (Z.to_nat n) l
  else firstn (Z.to_nat (Z.of_nat (List.length l) + n)) l.

(** [sorted] on a list of [str]. *)
Module StringOrder <: TotalLeBool.
Definition t := string.
Definition leb : t -> t -> bool := String.leb.
Theorem leb_total : forall a1 a2, leb a1 a2 = true \/ leb a2 a1 = true.
Proof. exact String.leb_total. Qed.
End StringOrder.

Module StringSort := Sort StringOrder.

Definition sorted (l : list string) : list string := StringSort.sort l.

(** The order in which a sorted list stands. *)
Definition str_le (a b : string) : Prop := String.leb a b = true.

(** [l.split("\n")[0]]: the text before the first line feed. *)
Fixpoint before_newline (s : string) : string :=
  match s with
  | EmptyString => EmptyString
  | String c s' =>
      if Ascii.eqb c "010"%char then EmptyString
      else String c (before_newline s')
  end.

(** The lines a text file yields when iterated: each one ends with its line
    feed, except possibly the last.  [cur] is the part of the current line
    read so far. *)
Fixpoint file_lines_from (text : string) (cur : string) : list string :=
  match text with
  | EmptyString =>
      match cur with
      | EmptyString => []
      | _ => [cur]
      end
  | String c text' =>
      if Ascii.eqb c "010"%char
      then (cur ++ String c EmptyString) :: file_lines_from text' EmptyString
      else file_lines_from text' (cur ++ String c EmptyString)
  end.

Definition file_lines (text : string) : list string :=
  file_lines_from text EmptyString.

(** ** The configuration [cfg] *)

(** The five groups of keys that [__init__] reads, every key present (a
    missing key raises [KeyError] before anything is resolved). *)

Record DIR_cfg : Type := {
  SOURCE_ROOT_DIR : string;
  MIX_ROOT_DIR : string;
  BG_ROOT_DIR : string;
  IR_ROOT_DIR : string;
  SPEECH_ROOT_DIR : string
}.

Record DATA_SEL_cfg : Type := {
  TRAIN : string;
  TEST_DUMMY_DB : string;
  TEST_QUERY_DB : string
}.

Record BSZ_cfg : Type := {
  TR_BATCH_SZ : Z;
  TR_N_ANCHOR : Z;
  VAL_BATCH_SZ : Z;
  VAL_N_ANCHOR : Z;
  TS_BATCH_SZ : Z
}.

Record MODEL_cfg : Type := {
  DUR : Q;
  HOP : Q;
  FS : Z
}.

Record TD_AUG_cfg : Type := {
  TR_SNR : list Z;
  TS_SNR : list Z;
  VAL_SNR : list Z;
  TR_BG_AUG : bool;
  TS_BG_AUG : bool;
  VAL_BG_AUG : bool;
  TR_IR_AUG : bool;
  TS_IR_AUG : bool;
  VAL_IR_AUG : bool;
  TR_SPEECH_AUG : bool;
  TS_SPEECH_AUG : bool;
  VAL_SPEECH_AUG : bool
}.

Record Config : Type := {
  DIR : DIR_cfg;
  DATA_SEL : DATA_SEL_cfg;
  BSZ : BSZ_cfg;
  MODEL : MODEL_cfg;
  TD_AUG : TD_AUG_cfg
}.

(** ** The instance *)

(** The file-list attributes of the instance, by name. *)
Inductive fps_attr : Type :=
| tr_bg_fps | ts_bg_fps | val_bg_fps
| tr_ir_fps | ts_ir_fps | val_ir_fps
| tr_speech_fps | ts_speech_fps | val_speech_fps
| tr_source_fps | val_source_fps
| tr_mix_fps | val_mix_fps
| ts_dummy_db_source_fps
| ts_query_icassp_fps | ts_db_icassp_fps
| ts_query_db_unseen_fps.

Definition fps_attr_eq_dec (a b : fps_attr) : {a = b} + {a <> b}.
Proof. decide equality. Defined.

Definition fps_store : Type := fps_attr -> option (list string).

Record Dataset : Type := {
  source_root_dir : string;
  mix_root_dir : string;
  bg_root_dir : string;
  ir_root_dir : string;
  speech_root_dir : string;
  datasel_train : string;
  datasel_test_dummy_db : string;
  datasel_test_query_db : string;
  tr_batch_sz : Z;
  tr_n_anchor : Z;
  val_batch_sz : Z;
  val_n_anchor : Z;
  ts_batch_sz : Z;
  dur : Q;
  hop : Q;
  fs : Z;
  tr_snr : list Z;
  ts_snr : list Z;
  val_snr : list Z;
  tr_use_bg_aug : bool;
  ts_use_bg_aug : bool;
  val_use_bg_aug : bool;
  tr_use_ir_aug : bool;
  ts_use_ir_aug : bool;
  val_use_ir_aug : bool;
  tr_use_speech_aug : bool;
  ts_use_speech_aug : bool;
  val_use_speech_aug : bool;
  fps : fps_store
}.

(** The instance [d] with [store] as its file-list attributes. *)
Definition with_fps (store : fps_store) (d : Dataset) : Dataset :=
  {| source_root_dir := source_root_dir d;
     mix_root_dir := mix_root_dir d;
     bg_root_dir := bg_root_dir d;
     ir_root_dir := ir_root_dir d;
     speech_root_dir := speech_root_dir d;
     datasel_train := datasel_train d;
     datasel_test_dummy_db := datasel_test_dummy_db d;
     datasel_test_query_db := datasel_test_query_db d;
     tr_batch_sz := tr_batch_sz d;
     tr_n_anchor := tr_n_anchor d;
     val_batch_sz := val_batch_sz d;
     val_n_anchor := val_n_anchor d;
     ts_batch_sz := ts_batch_sz d;
     dur := dur d;
     hop := hop d;
     fs := fs d;
     tr_snr := tr_snr d;
     ts_snr := ts_snr d;
     val_snr := val_snr d;
     tr_use_bg_aug := tr_use_bg_aug d;
     ts_use_bg_aug := ts_use_bg_aug d;
     val_use_bg_aug := val_use_bg_aug d;
     tr_use_ir_aug := tr_use_ir_aug d;
     ts_use_ir_aug := ts_use_ir_aug d;
     val_use_ir_aug := val_use_ir_aug d;
     tr_use_speech_aug := tr_use_speech_aug d;
     ts_use_speech_aug := ts_use_speech_aug d;
     val_use_speech_aug := val_use_speech_aug d;
     fps := store |}.

(** [self.<a> = v] for a file-list attribute [a]. *)
Definition set_fps (a : fps_attr) (v : option (list string)) (d : Dataset)
  : Dataset :=
  with_fps (fun b => if fps_attr_eq_dec a b then v else fps d b) d.

(** The methods of the class, found by attribute look-up after the
    attributes of the instance. *)
Definition class_attributes : list string :=
  [ "__init__"; "_Dataset__set_augmentation_fps"; "get_train_ds";
    "get_val_ds"; "get_test_dummy_db_ds"; "get_test_query_db_ds";
    "get_custom_db_ds" ].

Definition fps_attr_of_name (name : string) : option fps_attr :=
  match name with
  | "tr_bg_fps" => Some tr_bg_fps
  | "ts_bg_fps" => Some ts_bg_fps
  | "val_bg_fps" => Some val_bg_fps
  | "tr_ir_fps" => Some tr_ir_fps
  | "ts_ir_fps" => Some ts_ir_fps
  | "val_ir_fps" => Some val_ir_fps
  | "tr_speech_fps" => Some tr_speech_fps
  | "ts_speech_fps" => Some ts_speech_fps
  | "val_speech_fps" => Some val_speech_fps
  | "tr_source_fps" => Some tr_source_fps
  | "val_source_fps" => Some val_source_fps
  | "tr_mix_fps" => Some tr_mix_fps
  | "val_mix_fps" => Some val_mix_fps
  | "ts_dummy_db_source_fps" => Some ts_dummy_db_source_fps
  | "ts_query_icassp_fps" => Some ts_query_icassp_fps
  | "ts_db_icassp_fps" => Some ts_db_icassp_fps
  | "ts_query_db_unseen_fps" => Some ts_query_db_unseen_fps
  | _ => None
  end.

(** [self.<name>] for a name given as text: the attributes bound by
    [__init__], then the methods of the class (a bound method is of no
    further use here and stands as the name it was found under), and
    [AttributeError] for every other name. *)
Definition getattr (d : Dataset) (name : string) : exn + value :=
  match name with
  | "source_root_dir" => inr (VStr (source_root_dir d))
  | "mix_root_dir" => inr (VStr (mix_root_dir d))
  | "bg_root_dir" => inr (VStr (bg_root_dir d))
  | "ir_root_dir" => inr (VStr (ir_root_dir d))
  | "speech_root_dir" => inr (VStr (speech_root_dir d))
  | "datasel_train" => inr (VStr (datasel_train d))
  | "datasel_test_dummy_db" => inr (VStr (datasel_test_dummy_db d))
  | "datasel_test_query_db" => inr (VStr (datasel_test_query_db d))
  | "tr_batch_sz" => inr (VInt (tr_batch_sz d))
  | "tr_n_anchor" => inr (VInt (tr_n_anchor d))
  | "val_batch_sz" => inr (VInt (val_batch_sz d))
  | "val_n_anchor" => inr (VInt (val_n_anchor d))
  | "ts_batch_sz" => inr (VInt (ts_batch_sz d))
  | "dur" => inr (VFloat (dur d))
  | "hop" => inr (VFloat (hop d))
  | "fs" => inr (VInt (fs d))
  | "tr_snr" => inr (ints_value (tr_snr d))
  | "ts_snr" => inr (ints_value (ts_snr d))
  | "val_snr" => inr (ints_value (val_snr d))
  | "tr_use_bg_aug" => inr (VBool (tr_use_bg_aug d))
  | "ts_use_bg_aug" => inr (VBool (ts_use_bg_aug d))
  | "val_use_bg_aug" => inr (VBool (val_use_bg_aug d))
  | "tr_use_ir_aug" => inr (VBool (tr_use_ir_aug d))
  | "ts_use_ir_aug" => inr (VBool (ts_use_ir_aug d))
  | "val_use_ir_aug" => inr (VBool (val_use_ir_aug d))
  | "tr_use_speech_aug" => inr (VBool (tr_use_speech_aug d))
  | "ts_use_speech_aug" => inr (VBool (ts_use_speech_aug d))
  | "val_use_speech_aug" => inr (VBool (val_use_speech_aug d))
  | _ =>
      match fps_attr_of_name name with
      | Some a => inr (files_value (fps d a))
      | None =>
          if existsb (String.eqb name) class_attributes
          then inr (VStr name)
          else inl (AttributeError name)
      end
  end.

(** ** The file system *)

(** What [open(path, "r")] and the iteration over the lines come to:
    [open] raises; or the file opens and reading it raises [e] (a
    [UnicodeDecodeError] on bytes that do not decode, an [OSError] on a read
    that fails); or the file reads as the text [text], new lines
    translated. *)
Inductive file_state : Type :=
| OpenFails
| ReadFails (e : exn)
| Text (text : string).

(** [listing k pat] is what the [k]-th call of [glob.glob] of the process
    returns for the pattern [pat] (with [recursive=True]): the matching
    paths, in no particular order, and none at all under a directory that
    does not exist.  [file_text path] tells what reading the file [path]
    in text mode comes to. *)
Record filesystem : Type := {
  listing : nat -> string -> list string;
  file_text : string -> file_state
}.

(** The files under every pattern stay the same from one scan to the next;
    only the order in which a scan lists them may differ. *)
Definition unchanged (fsys : filesystem) : Prop :=
  forall k k' pat, Permutation (listing fsys k pat) (listing fsys k' pat).

(** ** State and exceptions *)

Record world : Type := {
  self : Dataset;
  scans : list string
}.

Definition M (A : Type) : Type := world -> (exn + A) * world.

Definition ret {A : Type} (a : A) : M A := fun w => (inr a, w).

Definition raise {A : Type} (e : exn) : M A := fun w => (inl e, w).

Definition bind {A B : Type} (m : M A) (k : A -> M B) : M B :=
  fun w =>
    match m w with
    | (inl e, w') => (inl e, w')
    | (inr a, w') => k a w'
    end.

Declare Scope py_scope.
Delimit Scope py_scope with py.
Notation "x <- m ;; k" := (bind m (fun x => k))
  (at level 100, m at next level, right associativity) : py_scope.
Notation "m ;; k" := (bind m (fun _ => k))
  (at level 100, right associativity) : py_scope.
Local Open Scope py_scope.

Definition lift {A : Type} (r : exn + A) : M A :=
  match r with
  | inl e => raise e
  | inr a => ret a
  end.

Definition get_self : M Dataset := fun w => (inr (self w), w).

Definition setattr (a : fps_attr) (v : option (list string)) : M unit :=
  fun w => (inr tt, {| self := set_fps a v (self w); scans := scans w |}).

(** [glob.glob(pat, recursive=True)]. *)
Definition glob (fsys : filesystem) (pat : string) : M (list string) :=
  fun w =>
    (inr (listing fsys (List.length (scans w)) pat),
     {| self := self w; scans := scans w ++ [pat] |}).

(** [with open(source, "r") as fin: for l in fin: ...]: the lines of the
    file, or the exception of [open] or of the reading. *)
Definition open_lines (fsys : filesystem) (source : string)
  : M (list string) :=
  match file_text fsys source with
  | OpenFails => raise (OSError source)
  | ReadFails e => raise e
  | Text text => ret (file_lines text)
  end.

(** [fps[:n]] on the value of a file-list attribute. *)
Definition slice_fps (v : option (list string)) (n : Z) : M (list string) :=
  match v with
  | None => raise TypeError
  | Some l => ret (slice_to l n)
  end.

(** [x in l] for strings. *)
Definition str_in (x : string) (l : list string) : bool :=
  existsb (String.eqb x) l.

(** ** The batch sequence generator *)

(** Modelled from the spec: the constructor [genUnbalSequence] of
    [model/utils/dataloader_keras.py], which is not among the sources.  A
    call is recorded as the arguments it was given.  The positional
    parameters are, in this order, the primary file list, the batch size,
    the anchor count, the segment duration, the hop size and the sample
    rate; every other parameter is passed by keyword, and one that a call
    does not pass is [None] here. *)
Module genUnbalSequence.
Record args : Type := {
  fns_source_event_list : option (list string);
  fns_mix_event_list : option (option (list string));
  bsz : Z;
  n_anchor : Z;
  duration : Q;
  hop : Q;
  fs : Z;
  shuffle : bool;
  random_offset_anchor : bool;
  bg_mix_parameter : option (list value);
  ir_mix_parameter : option (list value);
  speech_mix_parameter : option (list value);
  reduce_items_p : option Q;
  reduce_batch_first_half : option bool;
  drop_the_last_non_full_batch : option bool
}.
End genUnbalSequence.

Definition policy : Type := genUnbalSequence.args.

(** ** The class [Dataset] *)

(** [__init__], lines 39 to 74: the attributes copied from [cfg]. *)
Definition attributes_of_cfg (cfg : Config) : Dataset :=
  {| source_root_dir := SOURCE_ROOT_DIR (DIR cfg);
     mix_root_dir := MIX_ROOT_DIR (DIR cfg);
     bg_root_dir := BG_ROOT_DIR (DIR cfg);
     ir_root_dir := IR_ROOT_DIR (DIR cfg);
     speech_root_dir := SPEECH_ROOT_DIR (DIR cfg);
     datasel_train := TRAIN (DATA_SEL cfg);
     datasel_test_dummy_db := TEST_DUMMY_DB (DATA_SEL cfg);
     datasel_test_query_db := TEST_QUERY_DB (DATA_SEL cfg);
     tr_batch_sz := TR_BATCH_SZ (BSZ cfg);
     tr_n_anchor := TR_N_ANCHOR (BSZ cfg);
     val_batch_sz := VAL_BATCH_SZ (BSZ cfg);
     val_n_anchor := VAL_N_ANCHOR (BSZ cfg);
     ts_batch_sz := TS_BATCH_SZ (BSZ cfg);
     dur := DUR (MODEL cfg);
     hop := HOP (MODEL cfg);
     fs := FS (MODEL cfg);
     tr_snr := TR_SNR (TD_AUG cfg);
     ts_snr := TS_SNR (TD_AUG cfg);
     val_snr := VAL_SNR (TD_AUG cfg);
     tr_use_bg_aug := TR_BG_AUG (TD_AUG cfg);
     ts_use_bg_aug := TS_BG_AUG (TD_AUG cfg);
     val_use_bg_aug := VAL_BG_AUG (TD_AUG cfg);
     tr_use_ir_aug := TR_IR_AUG (TD_AUG cfg);
     ts_use_ir_aug := TS_IR_AUG (TD_AUG cfg);
     val_use_ir_aug := VAL_IR_AUG (TD_AUG cfg);
     tr_use_speech_aug := TR_SPEECH_AUG (TD_AUG cfg);
     ts_use_speech_aug := TS_SPEECH_AUG (TD_AUG cfg);
     val_use_speech_aug := VAL_SPEECH_AUG (TD_AUG cfg);
     fps := fun _ => None |}.

(** [if toggle: self.<a> = sorted(glob.glob(pat, recursive=True))]. *)
Definition scan_if (fsys : filesystem) (toggle : bool) (a : fps_attr)
    (pat : string) : M unit :=
  if toggle
  then (l <- glob fsys pat;; setattr a (Some (sorted l)))
  else ret tt.

Definition __set_augmentation_fps (fsys : filesystem) : M unit :=
  d <- get_self;;
  scan_if fsys (tr_use_bg_aug d) tr_bg_fps (bg_root_dir d ++ "tr/**/*.wav");;
  scan_if fsys (ts_use_bg_aug d) ts_bg_fps (bg_root_dir d ++ "ts/**/*.wav");;
  scan_if fsys (val_use_bg_aug d) val_bg_fps (bg_root_dir d ++ "tr/**/*.wav");;
  scan_if fsys (tr_use_ir_aug d) tr_ir_fps (ir_root_dir d ++ "tr/**/*.wav");;
  scan_if fsys (ts_use_ir_aug d) ts_ir_fps (ir_root_dir d ++ "ts/**/*.wav");;
  scan_if fsys (val_use_ir_aug d) val_ir_fps (ir_root_dir d ++ "tr/**/*.wav");;
  scan_if fsys (tr_use_speech_aug d) tr_speech_fps
    (speech_root_dir d ++ "train/**/*.wav");;
  (l <- glob fsys (speech_root_dir d ++ "test/**/*.wav");;
   setattr ts_speech_fps (Some (sorted l)));;
  scan_if fsys (val_use_speech_aug d) val_speech_fps
    (speech_root_dir d ++ "dev/**/*.wav").

Definition __init__ (fsys : filesystem) (cfg : Config) (log : list string)
  : (exn + unit) * world :=
  (setattr tr_bg_fps None;; setattr ts_bg_fps None;; setattr val_bg_fps None;;
   setattr tr_ir_fps None;; setattr ts_ir_fps None;; setattr val_ir_fps None;;
   setattr tr_speech_fps None;; setattr ts_speech_fps None;;
   setattr val_speech_fps None;;
   __set_augmentation_fps fsys;;
   setattr tr_source_fps None;; setattr val_source_fps None;;
   setattr tr_mix_fps None;; setattr val_mix_fps None;;
   setattr ts_dummy_db_source_fps None;;
   setattr ts_query_icassp_fps None;; setattr ts_db_icassp_fps None;;
   setattr ts_query_db_unseen_fps None)
    {| self := attributes_of_cfg cfg; scans := log |}.

(** [[toggle, fps, snr]] and [[toggle, fps]]. *)
Definition mix3 (toggle : bool) (files : option (list string))
    (snr : list Z) : list value :=
  [VBool toggle; files_value files; ints_value snr].

Definition mix2 (toggle : bool) (files : option (list string))
  : list value :=
  [VBool toggle; files_value files].

(** [get_train_ds(self, reduce_items_p=0)]. *)
Definition get_train_ds (fsys : filesystem) (reduce_items_p : Q)
  : M policy :=
  d <- get_self;;
  _prefix <- (if (datasel_train d =? "10k_icassp")%string
              then ret "train-10k-30s/"
              else if (datasel_train d =? "audible")%string
              then ret "dataset/"
              else raise (NotImplementedError (datasel_train d)));;
  l <- glob fsys (source_root_dir d ++ "**/*.wav");;
  setattr tr_source_fps (Some (sorted l));;
  l <- glob fsys (mix_root_dir d ++ "**/*.wav");;
  setattr tr_mix_fps (Some (sorted l));;
  d <- get_self;;
  ret {| genUnbalSequence.fns_source_event_list := fps d tr_source_fps;
         genUnbalSequence.fns_mix_event_list := Some (fps d tr_mix_fps);
         genUnbalSequence.bsz := tr_batch_sz d;
         genUnbalSequence.n_anchor := tr_n_anchor d;
         genUnbalSequence.duration := dur d;
         genUnbalSequence.hop := hop d;
         genUnbalSequence.fs := fs d;
         genUnbalSequence.shuffle := true;
         genUnbalSequence.random_offset_anchor := true;
         genUnbalSequence.bg_mix_parameter :=
           Some (mix3 (tr_use_bg_aug d) (fps d tr_bg_fps) (tr_snr d));
         genUnbalSequence.ir_mix_parameter :=
           Some (mix2 (tr_use_ir_aug d) (fps d tr_ir_fps));
         genUnbalSequence.speech_mix_parameter :=
           Some (mix3 (tr_use_speech_aug d) (fps d tr_speech_fps) (tr_snr d));
         genUnbalSequence.reduce_items_p := Some reduce_items_p;
         genUnbalSequence.reduce_batch_first_half := None;
         genUnbalSequence.drop_the_last_non_full_batch := None |}.

(** [get_val_ds(self, max_song=500)]. *)
Definition get_val_ds (fsys : filesystem) (max_song : Z) : M policy :=
  d <- get_self;;
  l <- glob fsys (source_root_dir d ++ "val-query-db-500-30s/" ++ "**/*.wav");;
  setattr val_source_fps (Some (slice_to (sorted l) max_song));;
  d <- get_self;;
  ret {| genUnbalSequence.fns_source_event_list := fps d val_source_fps;
         genUnbalSequence.fns_mix_event_list := None;
         genUnbalSequence.bsz := val_batch_sz d;
         genUnbalSequence.n_anchor := val_n_anchor d;
         genUnbalSequence.duration := dur d;
         genUnbalSequence.hop := hop d;
         genUnbalSequence.fs := fs d;
         genUnbalSequence.shuffle := false;
         genUnbalSequence.random_offset_anchor := false;
         genUnbalSequence.bg_mix_parameter :=
           Some (mix3 (val_use_bg_aug d) (fps d val_bg_fps) (val_snr d));
         genUnbalSequence.ir_mix_parameter :=
           Some (mix2 (val_use_ir_aug d) (fps d val_ir_fps));
         genUnbalSequence.speech_mix_parameter :=
           Some (mix3 (val_use_speech_aug d) (fps d val_speech_fps)
                   (val_snr d));
         genUnbalSequence.reduce_items_p := None;
         genUnbalSequence.reduce_batch_first_half := None;
         genUnbalSequence.drop_the_last_non_full_batch := None |}.

(** The call shared by the partitions without augmentation:
    [genUnbalSequence(files, batch, anchor, self.dur, self.hop, self.fs,
    shuffle=False, random_offset_anchor=False,
    drop_the_last_non_full_batch=False)]. *)
Definition plain_call (d : Dataset) (files : option (list string))
    (batch anchor : Z) : policy :=
  {| genUnbalSequence.fns_source_event_list := files;
     genUnbalSequence.fns_mix_event_list := None;
     genUnbalSequence.bsz := batch;
     genUnbalSequence.n_anchor := anchor;
     genUnbalSequence.duration := dur d;
     genUnbalSequence.hop := hop d;
     genUnbalSequence.fs := fs d;
     genUnbalSequence.shuffle := false;
     genUnbalSequence.random_offset_anchor := false;
     genUnbalSequence.bg_mix_parameter := None;
     genUnbalSequence.ir_mix_parameter := None;
     genUnbalSequence.speech_mix_parameter := None;
     genUnbalSequence.reduce_items_p := None;
     genUnbalSequence.reduce_batch_first_half := None;
     genUnbalSequence.drop_the_last_non_full_batch := Some false |}.

(** [get_test_dummy_db_ds(self)]. *)
Definition get_test_dummy_db_ds (fsys : filesystem) : M policy :=
  d <- get_self;;
  l <- glob fsys
         (source_root_dir d ++ "test-dummy-db-100k-full/" ++ "**/*.wav");;
  setattr ts_dummy_db_source_fps (Some (sorted l));;
  d <- get_self;;
  (if str_in (datasel_test_dummy_db d) ["10k_full"; "10k_30s"] then
     l' <- slice_fps (fps d ts_dummy_db_source_fps) 10000;;
     setattr ts_dummy_db_source_fps (Some l')
   else if (datasel_test_dummy_db d =? "100k_full_icassp")%string then
     setattr ts_dummy_db_source_fps (fps d ts_dummy_db_source_fps)
   else if isnumeric (datasel_test_dummy_db d) then
     v <- lift (getattr d "datasel_test_db");;
     n <- lift (py_int v);;
     l' <- slice_fps (fps d ts_dummy_db_source_fps) n;;
     setattr ts_dummy_db_source_fps (Some l')
   else raise (NotImplementedError (datasel_test_dummy_db d)));;
  d <- get_self;;
  let _ts_n_anchor := ts_batch_sz d in
  ret (plain_call d (fps d ts_dummy_db_source_fps) (ts_batch_sz d)
         _ts_n_anchor).

(** [get_test_query_db_ds(self, datasel=None)]: the pair
    [(ds_query, ds_db)]. *)
Definition get_test_query_db_ds (fsys : filesystem) (datasel : value)
  : M (policy * policy) :=
  d <- get_self;;
  (if truthy datasel
   then (_ <- lift (getattr d "datasel");; ret tt)
   else ret tt);;
  if (datasel_test_query_db d =? "unseen_icassp")%string then
    l <- glob fsys
           (source_root_dir d ++ "test-query-db-500-30s/" ++ "query/**/*.wav");;
    setattr ts_query_icassp_fps (Some (sorted l));;
    l <- glob fsys
           (source_root_dir d ++ "test-query-db-500-30s/" ++ "db/**/*.wav");;
    setattr ts_db_icassp_fps (Some (sorted l));;
    d <- get_self;;
    let _ts_n_anchor := ts_batch_sz d in
    let ds_query :=
      plain_call d (fps d ts_query_icassp_fps) (ts_batch_sz d) _ts_n_anchor in
    let ds_db :=
      plain_call d (fps d ts_db_icassp_fps) (ts_batch_sz d) _ts_n_anchor in
    ret (ds_query, ds_db)
  else if (datasel_test_query_db d =? "unseen_syn")%string then
    l <- glob fsys
           (source_root_dir d ++ "val-query-db-500-30s/" ++ "db/**/*.wav");;
    setattr ts_query_db_unseen_fps (Some (sorted l));;
    d <- get_self;;
    let _query_ts_batch_sz := ts_batch_sz d * 2 in
    let _query_ts_n_anchor := ts_batch_sz d in
    let ds_query :=
      {| genUnbalSequence.fns_source_event_list :=
           fps d ts_query_db_unseen_fps;
         genUnbalSequence.fns_mix_event_list := None;
         genUnbalSequence.bsz := _query_ts_batch_sz;
         genUnbalSequence.n_anchor := _query_ts_n_anchor;
         genUnbalSequence.duration := dur d;
         genUnbalSequence.hop := hop d;
         genUnbalSequence.fs := fs d;
         genUnbalSequence.shuffle := false;
         genUnbalSequence.random_offset_anchor := false;
         genUnbalSequence.bg_mix_parameter :=
           Some (mix3 (ts_use_bg_aug d) (fps d ts_bg_fps) (ts_snr d));
         genUnbalSequence.ir_mix_parameter :=
           Some (mix2 (ts_use_ir_aug d) (fps d ts_ir_fps));
         genUnbalSequence.speech_mix_parameter := Some [VBool false];
         genUnbalSequence.reduce_items_p := None;
         genUnbalSequence.reduce_batch_first_half := Some true;
         genUnbalSequence.drop_the_last_non_full_batch := Some false |} in
    let _db_ts_n_anchor := ts_batch_sz d in
    let ds_db :=
      plain_call d (fps d ts_query_db_unseen_fps) (ts_batch_sz d)
        _db_ts_n_anchor in
    ret (ds_query, ds_db)
  else raise (NotImplementedError (datasel_test_query_db d)).

(** [get_custom_db_ds(self, source, isdir)]. *)
Definition get_custom_db_ds (fsys : filesystem) (source : string)
    (isdir : value) : M policy :=
  fps <- (if is_True isdir then
            l <- glob fsys (source ++ "/**/*.wav");;
            ret (sorted l)
          else
            lines <- open_lines fsys source;;
            ret (sorted (map before_newline lines)));;
  d <- get_self;;
  let _ts_n_anchor := ts_batch_sz d in
  ret (plain_call d (Some fps) (ts_batch_sz d) _ts_n_anchor).

(** ** Calls and reachable states *)

Inductive call : Type :=
| Call_get_train_ds (reduce_items_p : Q)
| Call_get_val_ds (max_song : Z)
| Call_get_test_dummy_db_ds
| Call_get_test_query_db_ds (datasel : value)
| Call_get_custom_db_ds (source : string) (isdir : value).

(** A call and the policies it returns. *)
Definition run (fsys : filesystem) (c : call) : M (list policy) :=
  match c with
  | Call_get_train_ds p => ds <- get_train_ds fsys p;; ret [ds]
  | Call_get_val_ds n => ds <- get_val_ds fsys n;; ret [ds]
  | Call_get_test_dummy_db_ds => ds <- get_test_dummy_db_ds fsys;; ret [ds]
  | Call_get_test_query_db_ds datasel =>
      qd <- get_test_query_db_ds fsys datasel;; ret [fst qd; snd qd]
  | Call_get_custom_db_ds source isdir =>
      ds <- get_custom_db_ds fsys source isdir;; ret [ds]
  end.

(** The states of a selector: the one [Dataset(cfg)] leaves, and every one
    reached from it by calls of the public methods, whether they return or
    raise. *)
Inductive reachable (fsys : filesystem) (cfg : Config) : world -> Prop :=
| reach_init log : reachable fsys cfg (snd (__init__ fsys cfg log))
| reach_call w c :
    reachable fsys cfg w -> reachable fsys cfg (snd (run fsys c w)).

(** The toggle that guards the scan of an augmentation file list in
    [__set_augmentation_fps]; [ts_speech_fps] has none, nor have the source
    file lists. *)
Definition guard (cfg : Config) (a : fps_attr) : bool :=
  match a with
  | tr_bg_fps => TR_BG_AUG (TD_AUG cfg)
  | ts_bg_fps => TS_BG_AUG (TD_AUG cfg)
  | val_bg_fps => VAL_BG_AUG (TD_AUG cfg)
  | tr_ir_fps => TR_IR_AUG (TD_AUG cfg)
  | ts_ir_fps => TS_IR_AUG (TD_AUG cfg)
  | val_ir_fps => VAL_IR_AUG (TD_AUG cfg)
  | tr_speech_fps => TR_SPEECH_AUG (TD_AUG cfg)
  | val_speech_fps => VAL_SPEECH_AUG (TD_AUG cfg)
  | _ => true
  end.

(** The file lists a policy carries as such: the primary one and, for the
    train partition, the mix list. *)
Definition policy_file_lists (p : policy) : list (list string) :=
  match genUnbalSequence.fns_source_event_list p with
  | Some l => [l]
  | None => []
  end ++
  match genUnbalSequence.fns_mix_event_list p with
  | Some (Some l) => [l]
  | _ => []
  end.

(** What holds of the instance from [Dataset(cfg)] on: the attributes copied
    from [cfg] stay as they are, every stored file list is sorted, and a
    guarded augmentation list whose toggle is off is [None]. *)
Record Inv (cfg : Config) (d : Dataset) : Prop := {
  inv_attrs : with_fps (fun _ => None) d = attributes_of_cfg cfg;
  inv_sorted : forall a l, fps d a = Some l -> StronglySorted str_le l;
  inv_guard : forall a, guard cfg a = false -> fps d a = None
}.

(** A computation keeps the invariant, whether it returns or raises. *)
Definition keeps (cfg : Config) {A : Type} (m : M A) : Prop :=
  forall w, Inv cfg (self w) -> Inv cfg (self (snd (m w))).

Arguments sorted : simpl never.
Arguments slice_to : simpl never.

(** ** The vocabulary of the tags and the pools *)

(** The tags that a branch of each tag-driven resolver accepts. *)
Definition train_tag_supported (tag : string) : bool :=
  (tag =? "10k_icassp")%string || (tag =? "audible")%string.

Definition dummy_db_tag_supported (tag : string) : bool :=
  str_in tag ["10k_full"; "10k_30s"]
  || (tag =? "100k_full_icassp")%string
  || isnumeric tag.

Definition query_db_tag_supported (tag : string) : bool :=
  (tag =? "unseen_icassp")%string || (tag =? "unseen_syn")%string.

(** The sorted scan of a pattern, made in the state [w]. *)
Definition scan (fsys : filesystem) (w : world) (pat : string)
  : list string :=
  sorted (listing fsys (List.length (scans w)) pat).

(** The state [w] after one scan of [pat]. *)
Definition scanned (w : world) (pat : string) : world :=
  {| self := self w; scans := scans w ++ [pat] |}.

(** The state [w] with the file-list attribute [a] set to [v]. *)
Definition stored (a : fps_attr) (v : option (list string)) (w : world)
  : world :=
  {| self := set_fps a v (self w); scans := scans w |}.

(** The state that [scan_if] leaves. *)
Definition after_scan_if (fsys : filesystem) (toggle : bool) (a : fps_attr)
    (pat : string) (w : world) : world :=
  if toggle then stored a (Some (scan fsys w pat)) (scanned w pat) else w.

(** The state that [__set_augmentation_fps] leaves: the nine statements in
    their order. *)
Definition after_set_augmentation_fps (fsys : filesystem) (w : world)
  : world :=
  let d := self w in
  let w1 := after_scan_if fsys (tr_use_bg_aug d) tr_bg_fps
              (bg_root_dir d ++ "tr/**/*.wav") w in
  let w2 := after_scan_if fsys (ts_use_bg_aug d) ts_bg_fps
              (bg_root_dir d ++ "ts/**/*.wav") w1 in
  let w3 := after_scan_if fsys (val_use_bg_aug d) val_bg_fps
              (bg_root_dir d ++ "tr/**/*.wav") w2 in
  let w4 := after_scan_if fsys (tr_use_ir_aug d) tr_ir_fps
              (ir_root_dir d ++ "tr/**/*.wav") w3 in
  let w5 := after_scan_if fsys (ts_use_ir_aug d) ts_ir_fps
              (ir_root_dir d ++ "ts/**/*.wav") w4 in
  let w6 := after_scan_if fsys (val_use_ir_aug d) val_ir_fps
              (ir_root_dir d ++ "tr/**/*.wav") w5 in
  let w7 := after_scan_if fsys (tr_use_speech_aug d) tr_speech_fps
              (speech_root_dir d ++ "train/**/*.wav") w6 in
  let w8 := after_scan_if fsys true ts_speech_fps
              (speech_root_dir d ++ "test/**/*.wav") w7 in
  after_scan_if fsys (val_use_speech_aug d) val_speech_fps
    (speech_root_dir d ++ "dev/**/*.wav") w8.

(** [__init__], lines 77 to 79 and 83 to 87: the attributes set to
    [None]. *)
Definition aug_None (w : world) : world :=
  stored val_speech_fps None (stored ts_speech_fps None
    (stored tr_speech_fps None (stored val_ir_fps None
      (stored ts_ir_fps None (stored tr_ir_fps None
        (stored val_bg_fps None (stored ts_bg_fps None
          (stored tr_bg_fps None w)))))))).

Definition source_None (w : world) : world :=
  stored ts_query_db_unseen_fps None (stored ts_db_icassp_fps None
    (stored ts_query_icassp_fps None (stored ts_dummy_db_source_fps None
      (stored val_mix_fps None (stored tr_mix_fps None
        (stored val_source_fps None (stored tr_source_fps None w))))))).

Arguments after_scan_if : simpl never.
Arguments after_set_augmentation_fps : simpl never.

(** The augmentation file lists, which only [__init__] sets. *)
Definition aug_attr (a : fps_attr) : bool :=
  match a with
  | tr_bg_fps | ts_bg_fps | val_bg_fps
  | tr_ir_fps | ts_ir_fps | val_ir_fps
  | tr_speech_fps | ts_speech_fps | val_speech_fps => true
  | _ => false
  end.

(** Two instances that a resolver cannot tell apart: the same attributes
    from the configuration and the same augmentation file lists. *)
Definition same_inputs (d d' : Dataset) : Prop :=
  with_fps (fun _ => None) d = with_fps (fun _ => None) d'
  /\ forall a, aug_attr a = true -> fps d a = fps d' a.

(** A computation changes neither the attributes from the configuration nor
    the augmentation file lists. *)
Definition frames {A : Type} (m : M A) : Prop :=
  forall w, same_inputs (self w) (self (snd (m w))).

(** The sorted files under a pattern, as the first scan of the process
    would list them. *)
Definition pool (fsys : filesystem) (pat : string) : list string :=
  sorted (listing fsys 0 pat).

(** [l] followed by more. *)
Definition extends {A : Type} (l l' : list A) : Prop :=
  exists more, l' = (l ++ more)%list.

Definition dummy_db_pattern (d : Dataset) : string :=
  source_root_dir d ++ "test-dummy-db-100k-full/" ++ "**/*.wav".

Definition val_pattern (d : Dataset) : string :=
  source_root_dir d ++ "val-query-db-500-30s/" ++ "**/*.wav".

Definition unseen_syn_pattern (d : Dataset) : string :=
  source_root_dir d ++ "val-query-db-500-30s/" ++ "db/**/*.wav".

Definition custom_pattern (source : string) : string :=
  source ++ "/**/*.wav".

(** ** A sample configuration and file system *)

Module Sample.

Definition dirs : DIR_cfg :=
  {| SOURCE_ROOT_DIR := "data/music/";
     MIX_ROOT_DIR := "data/mix/";
     BG_ROOT_DIR := "data/aug/bg/";
     IR_ROOT_DIR := "data/aug/ir/";
     SPEECH_ROOT_DIR := "data/aug/speech/" |}.

Definition model : MODEL_cfg := {| DUR := 1; HOP := 1 # 2; FS := 8000 |}.

Definition sizes (tr_b tr_a val_b val_a ts_b : Z) : BSZ_cfg :=
  {| TR_BATCH_SZ := tr_b; TR_N_ANCHOR := tr_a;
     VAL_BATCH_SZ := val_b; VAL_N_ANCHOR := val_a;
     TS_BATCH_SZ := ts_b |}.

(** Every toggle of the three kinds set to [bg], [ir] and [speech]. *)
Definition aug (bg ir speech : bool) : TD_AUG_cfg :=
  {| TR_SNR := [0; 10]; TS_SNR := [0; 10]; VAL_SNR := [0; 10];
     TR_BG_AUG := bg; TS_BG_AUG := bg; VAL_BG_AUG := bg;
     TR_IR_AUG := ir; TS_IR_AUG := ir; VAL_IR_AUG := ir;
     TR_SPEECH_AUG := speech; TS_SPEECH_AUG := speech;
     VAL_SPEECH_AUG := speech |}.

Definition cfg_with (train dummy query : string) (b : BSZ_cfg)
    (a : TD_AUG_cfg) : Config :=
  {| DIR := dirs;
     DATA_SEL := {| TRAIN := train; TEST_DUMMY_DB := dummy;
                    TEST_QUERY_DB := query |};
     BSZ := b; MODEL := model; TD_AUG := a |}.

Definition cfg : Config :=
  cfg_with "10k_icassp" "100k_full_icassp" "unseen_icassp"
    (sizes 120 60 120 60 125) (aug true true true).

(** A numeric-string tag for the dummy database. *)
Definition cfg_numeric : Config :=
  cfg_with "10k_icassp" "100" "unseen_icassp"
    (sizes 120 60 120 60 125) (aug true true true).

(** Tags that no resolver knows. *)
Definition cfg_unsupported : Config :=
  cfg_with "20k" "bogus" "seen"
    (sizes 120 60 120 60 125) (aug true true true).

(** The synthesized protocol. *)
Definition cfg_syn : Config :=
  cfg_with "10k_icassp" "10k_full" "unseen_syn"
    (sizes 120 60 120 60 125) (aug true true false).

(** More train anchors than the train batch holds. *)
Definition cfg_small_batch : Config :=
  cfg_with "10k_icassp" "10k_full" "unseen_icassp"
    (sizes 8 40 120 60 125) (aug true true true).

(** Every augmentation switched off. *)
Definition cfg_no_aug : Config :=
  cfg_with "10k_icassp" "10k_full" "unseen_syn"
    (sizes 120 60 120 60 125) (aug false false false).

(** The files that match a pattern. *)
Definition files (pat : string) : list string :=
  if (pat =? "data/music/**/*.wav")%string then
    ["data/music/train-10k-30s/b.wav"; "data/music/train-10k-30s/a.wav";
     "data/music/test-dummy-db-100k-full/z.wav";
     "data/music/test-dummy-db-100k-full/x/y.wav"]
  else if (pat =? "data/music/test-dummy-db-100k-full/**/*.wav")%string then
    ["data/music/test-dummy-db-100k-full/z.wav";
     "data/music/test-dummy-db-100k-full/x/y.wav"]
  else if (pat =? "data/music/val-query-db-500-30s/**/*.wav")%string then
    ["data/music/val-query-db-500-30s/db/3.wav";
     "data/music/val-query-db-500-30s/db/1.wav";
     "data/music/val-query-db-500-30s/query/2.wav"]
  else if (pat =? "data/music/val-query-db-500-30s/db/**/*.wav")%string then
    ["data/music/val-query-db-500-30s/db/3.wav";
     "data/music/val-query-db-500-30s/db/1.wav"]
  else if (pat =? "data/aug/bg/tr/**/*.wav")%string then
    ["data/aug/bg/tr/n2.wav"; "data/aug/bg/tr/n1.wav"]
  else if (pat =? "data/aug/speech/test/**/*.wav")%string then
    ["data/aug/speech/test/s.wav"]
  else if (pat =? "custom/**/*.wav")%string then
    ["custom/q.wav"; "custom/p.wav"]
  else [].

(** Every other scan lists the files in the opposite order. *)
Definition fsys : filesystem :=
  {| listing := fun k pat =>
       if Nat.even k then files pat else rev (files pat);
     file_text := fun path =>
       if (path =? "manifest.txt")%string
       then Text ("b.wav" ++ String "010" ("a.wav" ++ String "010" ""))
       else if (path =? "empty.txt")%string then Text ""
       else if (path =? "binary.dat")%string
            then ReadFails (UnicodeDecodeError "binary.dat")
            else OpenFails |}.

(** The selector [Dataset(c)] built first thing in the process. *)
Definition dataset (c : Config) : world := snd (__init__ fsys c []).

(** A validation pool of 600 files, [000.wav] to [599.wav], that a scan
    lists from the last to the first. *)
Definition digit (n : nat) : ascii := ascii_of_nat (48 + n).

Definition three_digits (i : nat) : string :=
  String (digit (i / 100))
    (String (digit ((i / 10) mod 10)) (String (digit (i mod 10)) "")).

Definition val_file (i : nat) : string :=
  "data/music/val-query-db-500-30s/" ++ three_digits i ++ ".wav".

Definition val_600 : list string := map val_file (seq 0 600).

Definition fsys_600 : filesystem :=
  {| listing := fun _ pat =>
       if (pat =? "data/music/val-query-db-500-30s/**/*.wav")%string
       then rev val_600 else [];
     file_text := fun _ => OpenFails |}.

Definition dataset_600 : world := snd (__init__ fsys_600 cfg []).

End Sample.

(** ** Further vocabulary *)

(** The instance [d] with [tag] as its [datasel_train]. *)
Definition with_datasel_train (tag : string) (d : Dataset) : Dataset :=
  {| source_root_dir := source_root_dir d;
     mix_root_dir := mix_root_dir d;
     bg_root_dir := bg_root_dir d;
     ir_root_dir := ir_root_dir d;
     speech_root_dir := speech_root_dir d;
     datasel_train := tag;
     datasel_test_dummy_db := datasel_test_dummy_db d;
     datasel_test_query_db := datasel_test_query_db d;
     tr_batch_sz := tr_batch_sz d;
     tr_n_anchor := tr_n_anchor d;
     val_batch_sz := val_batch_sz d;
     val_n_anchor := val_n_anchor d;
     ts_batch_sz := ts_batch_sz d;
     dur := dur d;
     hop := hop d;
     fs := fs d;
     tr_snr := tr_snr d;
     ts_snr := ts_snr d;
     val_snr := val_snr d;
     tr_use_bg_aug := tr_use_bg_aug d;
     ts_use_bg_aug := ts_use_bg_aug d;
     val_use_bg_aug := val_use_bg_aug d;
     tr_use_ir_aug := tr_use_ir_aug d;
     ts_use_ir_aug := ts_use_ir_aug d;
     val_use_ir_aug := val_use_ir_aug d;
     tr_use_speech_aug := tr_use_speech_aug d;
     ts_use_speech_aug := ts_use_speech_aug d;
     val_use_speech_aug := val_use_speech_aug d;
     fps := fps d |}.

Definition train_source_pattern (d : Dataset) : string :=
  source_root_dir d ++ "**/*.wav".

Definition train_mix_pattern (d : Dataset) : string :=
  mix_root_dir d ++ "**/*.wav".

Definition icassp_query_pattern (d : Dataset) : string :=
  source_root_dir d ++ "test-query-db-500-30s/" ++ "query/**/*.wav".

Definition icassp_db_pattern (d : Dataset) : string :=
  source_root_dir d ++ "test-query-db-500-30s/" ++ "db/**/*.wav".

(** The patterns that a call scans, in their order, in an instance [d]. *)
Definition call_patterns (d : Dataset) (c : call) : list string :=
  match c with
  | Call_get_train_ds _ =>
      if train_tag_supported (datasel_train d)
      then [train_source_pattern d; train_mix_pattern d]
      else []
  | Call_get_val_ds _ => [val_pattern d]
  | Call_get_test_dummy_db_ds => [dummy_db_pattern d]
  | Call_get_test_query_db_ds datasel =>
      if truthy datasel then []
      else if (datasel_test_query_db d =? "unseen_icassp")%string
           then [icassp_query_pattern d; icassp_db_pattern d]
           else if (datasel_test_query_db d =? "unseen_syn")%string
                then [unseen_syn_pattern d]
                else []
  | Call_get_custom_db_ds source isdir =>
      if is_True isdir then [custom_pattern source] else []
  end.

(** The pattern that [__set_augmentation_fps] scans for each augmentation
    file list. *)
Definition aug_pattern (cfg : Config) (a : fps_attr) : string :=
  match a with
  | tr_bg_fps | val_bg_fps => BG_ROOT_DIR (DIR cfg) ++ "tr/**/*.wav"
  | ts_bg_fps => BG_ROOT_DIR (DIR cfg) ++ "ts/**/*.wav"
  | tr_ir_fps | val_ir_fps => IR_ROOT_DIR (DIR cfg) ++ "tr/**/*.wav"
  | ts_ir_fps => IR_ROOT_DIR (DIR cfg) ++ "ts/**/*.wav"
  | tr_speech_fps => SPEECH_ROOT_DIR (DIR cfg) ++ "train/**/*.wav"
  | ts_speech_fps => SPEECH_ROOT_DIR (DIR cfg) ++ "test/**/*.wav"
  | val_speech_fps => SPEECH_ROOT_DIR (DIR cfg) ++ "dev/**/*.wav"
  | _ => EmptyString
  end.

(** [l'] is [l] followed by elements that satisfy [P]. *)
Definition extends_by {A : Type} (P : A -> Prop) (l l' : list A) : Prop :=
  exists more, l' = (l ++ more)%list /\ Forall P more.

(** A manifest file: every path followed by a line feed. *)
Fixpoint manifest_text (paths : list string) : string :=
  match paths with
  | [] => EmptyString
  | p :: rest => p ++ String "010" (manifest_text rest)
  end.

(** The string holds no line feed. *)
Fixpoint no_newline (s : string) : bool :=
  match s with
  | EmptyString => true
  | String c s' => negb (Ascii.eqb c "010"%char) && no_newline s'
  end.

(** A second sample: the pre-paired test directories, a dummy pool and a
    manifest with a blank line. *)
Module Testbed.

Definition cfg : Config :=
  Sample.cfg_with "audible" "10k_full" "unseen_icassp"
    (Sample.sizes 120 60 120 60 125) (Sample.aug true false false).

Definition cfg_full : Config :=
  Sample.cfg_with "audible" "100k_full_icassp" "unseen_icassp"
    (Sample.sizes 120 60 120 60 125) (Sample.aug true false false).

Definition files (pat : string) : list string :=
  if (pat =? "data/music/test-query-db-500-30s/query/**/*.wav")%string then
    ["data/music/test-query-db-500-30s/query/2.wav";
     "data/music/test-query-db-500-30s/query/1.wav"]
  else if (pat =? "data/music/test-query-db-500-30s/db/**/*.wav")%string then
    ["data/music/test-query-db-500-30s/db/b.wav";
     "data/music/test-query-db-500-30s/db/c.wav";
     "data/music/test-query-db-500-30s/db/a.wav"]
  else if (pat =? "data/music/test-dummy-db-100k-full/**/*.wav")%string then
    ["data/music/test-dummy-db-100k-full/9.wav";
     "data/music/test-dummy-db-100k-full/10.wav"]
  else if (pat =? "data/music/**/*.wav")%string then
    ["data/music/dataset/s.wav"]
  else if (pat =? "data/mix/**/*.wav")%string then
    ["data/mix/m.wav"]
  else if (pat =? "data/music/val-query-db-500-30s/**/*.wav")%string then
    ["data/music/val-query-db-500-30s/3.wav";
     "data/music/val-query-db-500-30s/1.wav";
     "data/music/val-query-db-500-30s/2.wav"]
  else if (pat =? "data/aug/bg/tr/**/*.wav")%string then
    ["data/aug/bg/tr/n2.wav"; "data/aug/bg/tr/n1.wav"]
  else [].

Definition fsys : filesystem :=
  {| listing := fun k pat =>
       if Nat.even k then files pat else rev (files pat);
     file_text := fun path =>
       if (path =? "list.txt")%string
       then Text (manifest_text ["b.wav"; ""; "a.wav"])
       else if (path =? "open.txt")%string
            then Text (manifest_text ["b.wav"] ++ "a.wav")
            else OpenFails |}.

Definition dataset (c : Config) : world := snd (__init__ fsys c []).

End Testbed.

(** * Properties *)

(** ** The order of [sorted] *)

Section StringOrderFacts.

Lemma string_leb_trans (a b c : string) :
  str_le a b -> str_le b c -> str_le a c.
Proof.
  unfold str_le, String.leb. revert b c.
  induction a as [|x a IH]; intros [|y b] [|z c]; simpl; try easy.
  unfold Ascii.compare.
  destruct (N.compare_spec (N_of_ascii x) (N_of_ascii y)) as [Hxy|Hxy|Hxy];
    destruct (N.compare_spec (N_of_ascii y) (N_of_ascii z)) as [Hyz|Hyz|Hyz];
    destruct (N.compare_spec (N_of_ascii x) (N_of_ascii z)) as [Hxz|Hxz|Hxz];
    try easy; try lia.
  apply IH.
Qed.

Lemma string_leb_antisym (a b : string) : str_le a b -> str_le b a -> a = b.
Proof. apply String.leb_antisym. Qed.

Lemma sorted_StronglySorted (l : list string) :
  StronglySorted str_le (sorted l).
Proof.
  unfold sorted.
  assert (H : StronglySorted (fun x y => is_true (StringOrder.leb x y))
                (StringSort.sort l)).
  { apply StringSort.StronglySorted_sort.
    intros a b c. apply string_leb_trans. }
  exact H.
Qed.

Lemma sorted_Permutation (l : list string) : Permutation l (sorted l).
Proof. apply StringSort.Permuted_sort. Qed.

Lemma sorted_length (l : list string) :
  List.length (sorted l) = List.length l.
Proof. symmetry. apply Permutation_length, sorted_Permutation. Qed.

(** Two sorted lists with the same elements are the same list. *)
Lemma StronglySorted_unique (l1 l2 : list string) :
  StronglySorted str_le l1 -> StronglySorted str_le l2 ->
  Permutation l1 l2 -> l1 = l2.
Proof.
  revert l2. induction l1 as [|a l1 IH]; intros l2 S1 S2 P.
  - apply Permutation_nil in P. now subst.
  - destruct l2 as [|b l2].
    + apply Permutation_sym, Permutation_nil in P. discriminate.
    + inversion S1 as [|? ? S1' F1]; subst.
      inversion S2 as [|? ? S2' F2]; subst.
      assert (Hab : a = b).
      { assert (Ha : In a (b :: l2))
          by (eapply Permutation_in; [exact P | now left]).
        assert (Hb : In b (a :: l1))
          by (eapply Permutation_in;
              [apply Permutation_sym; exact P | now left]).
        destruct Ha as [Ha|Ha]; [now subst|].
        destruct Hb as [Hb|Hb]; [now subst|].
        rewrite Forall_forall in F1, F2.
        apply string_leb_antisym; auto. }
      subst b. f_equal. apply IH; auto.
      eapply Permutation_cons_inv; exact P.
Qed.

(** [sorted] forgets the order of its argument. *)
Lemma sorted_of_Permutation (l l' : list string) :
  Permutation l l' -> sorted l = sorted l'.
Proof.
  intros P. apply StronglySorted_unique; try apply sorted_StronglySorted.
  eapply Permutation_trans; [apply Permutation_sym, sorted_Permutation|].
  eapply Permutation_trans; [exact P | apply sorted_Permutation].
Qed.

Lemma StronglySorted_firstn (n : nat) (l : list string) :
  StronglySorted str_le l -> StronglySorted str_le (firstn n l).
Proof.
  revert n. induction l as [|a l IH]; intros [|n] S; simpl;
    try constructor.
  - inversion S; subst. now apply IH.
  - inversion S as [|? ? _ F]; subst.
    rewrite Forall_forall in *. intros x Hx. apply F.
    rewrite <- (firstn_skipn n l). apply in_or_app. now left.
Qed.

Lemma StronglySorted_slice_to (l : list string) (n : Z) :
  StronglySorted str_le l -> StronglySorted str_le (slice_to l n).
Proof.
  intros S. unfold slice_to.
  destruct (0 <=? n); now apply StronglySorted_firstn.
Qed.

End StringOrderFacts.

(** ** The invariant of the instance *)

Section Invariant.

Variable fsys : filesystem.
Variable cfg : Config.

Lemma Inv_set_fps (a : fps_attr) (v : option (list string)) (d : Dataset) :
  Inv cfg d ->
  (forall l, v = Some l -> StronglySorted str_le l) ->
  (guard cfg a = false -> v = None) ->
  Inv cfg (set_fps a v d).
Proof.
  intros [Ha Hs Hg] Hv Hgv. split.
  - exact Ha.
  - intros b l. simpl. destruct (fps_attr_eq_dec a b); [apply Hv | apply Hs].
  - intros b Hb. simpl. destruct (fps_attr_eq_dec a b) as [->|]; auto.
Qed.

Lemma keeps_ret {A : Type} (a : A) : keeps cfg (ret a).
Proof. intros w H. exact H. Qed.

Lemma keeps_raise {A : Type} (e : exn) : keeps cfg (@raise A e).
Proof. intros w H. exact H. Qed.

Lemma keeps_lift {A : Type} (r : exn + A) : keeps cfg (lift r).
Proof. destruct r; [apply keeps_raise | apply keeps_ret]. Qed.

Lemma keeps_bind {A B : Type} (m : M A) (k : A -> M B) :
  keeps cfg m -> (forall a, keeps cfg (k a)) -> keeps cfg (bind m k).
Proof.
  intros Hm Hk w H. unfold bind. specialize (Hm w H).
  destruct (m w) as [[e|a] w']; simpl in *; [exact Hm | now apply Hk].
Qed.

(** What a computation returns may be used in what follows. *)
Lemma keeps_bind_post {A B : Type} (P : A -> Prop) (m : M A)
    (k : A -> M B) :
  keeps cfg m ->
  (forall w a w', m w = (inr a, w') -> P a) ->
  (forall a, P a -> keeps cfg (k a)) ->
  keeps cfg (bind m k).
Proof.
  intros Hm HP Hk w H. unfold bind. specialize (Hm w H).
  destruct (m w) as [[e|a] w'] eqn:E; simpl in *; [exact Hm|].
  apply Hk; [eapply HP; exact E | exact Hm].
Qed.

Lemma keeps_get_self {B : Type} (k : Dataset -> M B) :
  (forall d, Inv cfg d -> keeps cfg (k d)) -> keeps cfg (bind get_self k).
Proof. intros Hk w H. unfold bind, get_self. now apply Hk. Qed.

Lemma keeps_setattr (a : fps_attr) (v : option (list string)) :
  (forall l, v = Some l -> StronglySorted str_le l) ->
  (guard cfg a = false -> v = None) ->
  keeps cfg (setattr a v).
Proof. intros Hv Hg w H. simpl. now apply Inv_set_fps. Qed.

Lemma keeps_setattr_None (a : fps_attr) : keeps cfg (setattr a None).
Proof. apply keeps_setattr; [discriminate | reflexivity]. Qed.

Lemma keeps_glob (pat : string) : keeps cfg (glob fsys pat).
Proof. intros w H. exact H. Qed.

Lemma keeps_open_lines (source : string) :
  keeps cfg (open_lines fsys source).
Proof.
  unfold open_lines.
  destruct (file_text fsys source);
    first [apply keeps_ret | apply keeps_raise].
Qed.

Lemma keeps_slice_fps (v : option (list string)) (n : Z) :
  keeps cfg (slice_fps v n).
Proof. destruct v; [apply keeps_ret | apply keeps_raise]. Qed.

Lemma slice_fps_sorted (v : option (list string)) (n : Z) w l' w' :
  (forall l, v = Some l -> StronglySorted str_le l) ->
  slice_fps v n w = (inr l', w') -> StronglySorted str_le l'.
Proof.
  intros Hv. destruct v as [l|]; simpl; intros E; inversion E; subst.
  now apply StronglySorted_slice_to, Hv.
Qed.

(** The sorted scan of a pattern may be stored under any attribute that
    is not guarded by a toggle that is off. *)
Lemma keeps_scan (a : fps_attr) (pat : string) :
  guard cfg a = true ->
  keeps cfg (bind (glob fsys pat) (fun l => setattr a (Some (sorted l)))).
Proof.
  intros Hg. apply keeps_bind; [apply keeps_glob|]. intros l.
  apply keeps_setattr.
  - intros l' E. inversion E; subst. apply sorted_StronglySorted.
  - rewrite Hg. discriminate.
Qed.

Lemma keeps_scan_if (toggle : bool) (a : fps_attr) (pat : string) :
  (toggle = true -> guard cfg a = true) ->
  keeps cfg (scan_if fsys toggle a pat).
Proof.
  intros Hg. unfold scan_if. destruct toggle.
  - apply keeps_scan. now apply Hg.
  - apply keeps_ret.
Qed.

(** The attributes copied from [cfg], read back. *)
Lemma Inv_attr {T : Type} (f : Dataset -> T) (d : Dataset) :
  Inv cfg d ->
  f (with_fps (fun _ => None) d) = f (attributes_of_cfg cfg).
Proof. intros [Ha _ _]. now rewrite Ha. Qed.

Ltac keeps_step :=
  lazymatch goal with
  | |- keeps _ (bind (glob _ _) (fun l => setattr _ (Some (sorted l)))) =>
      apply keeps_scan; try reflexivity
  | |- keeps _ (bind _ _) => apply keeps_bind; [|intros ?]
  | |- keeps _ (ret _) => apply keeps_ret
  | |- keeps _ (raise _) => apply keeps_raise
  | |- keeps _ (lift _) => apply keeps_lift
  | |- keeps _ (glob _ _) => apply keeps_glob
  | |- keeps _ (open_lines _ _) => apply keeps_open_lines
  | |- keeps _ (slice_fps _ _) => apply keeps_slice_fps
  | |- keeps _ (setattr _ None) => apply keeps_setattr_None
  | |- keeps _ (setattr _ (Some (sorted _))) =>
      apply keeps_setattr;
      [ intros ? E; inversion E; subst; apply sorted_StronglySorted
      | simpl; discriminate ]
  | |- keeps _ (if _ then _ else _) => destruct_if
  end
with destruct_if :=
  lazymatch goal with
  | |- keeps _ (if ?b then _ else _) => destruct b
  end.

Lemma keeps___set_augmentation_fps : keeps cfg (__set_augmentation_fps fsys).
Proof.
  unfold __set_augmentation_fps.
  apply keeps_get_self. intros d Hd.
  pose proof (Inv_attr tr_use_bg_aug d Hd) as E1.
  pose proof (Inv_attr ts_use_bg_aug d Hd) as E2.
  pose proof (Inv_attr val_use_bg_aug d Hd) as E3.
  pose proof (Inv_attr tr_use_ir_aug d Hd) as E4.
  pose proof (Inv_attr ts_use_ir_aug d Hd) as E5.
  pose proof (Inv_attr val_use_ir_aug d Hd) as E6.
  pose proof (Inv_attr tr_use_speech_aug d Hd) as E7.
  pose proof (Inv_attr val_use_speech_aug d Hd) as E8.
  simpl in *.
  repeat first [ apply keeps_scan_if; simpl; congruence | keeps_step ].
Qed.

Lemma Inv_attributes_of_cfg : Inv cfg (attributes_of_cfg cfg).
Proof.
  split; [reflexivity | discriminate | reflexivity].
Qed.

Lemma Inv___init__ (log : list string) :
  Inv cfg (self (snd (__init__ fsys cfg log))).
Proof.
  unfold __init__.
  match goal with
  | |- Inv cfg (self (snd (?m ?w))) =>
      assert (K : keeps cfg m); [|apply (K w), Inv_attributes_of_cfg]
  end.
  repeat first [ apply keeps___set_augmentation_fps | keeps_step ].
Qed.

Lemma keeps_get_train_ds (p : Q) : keeps cfg (get_train_ds fsys p).
Proof.
  unfold get_train_ds. apply keeps_get_self. intros d Hd.
  repeat first [ apply keeps_get_self; intros ? ? | keeps_step ].
Qed.

Lemma keeps_get_val_ds (n : Z) : keeps cfg (get_val_ds fsys n).
Proof.
  unfold get_val_ds. apply keeps_get_self. intros d Hd.
  apply keeps_bind; [apply keeps_glob | intros l].
  apply keeps_bind.
  - apply keeps_setattr; [|discriminate].
    intros l' E. inversion E; subst.
    apply StronglySorted_slice_to, sorted_StronglySorted.
  - intros _. apply keeps_get_self. intros ? ?. apply keeps_ret.
Qed.

Lemma keeps_get_test_dummy_db_ds : keeps cfg (get_test_dummy_db_ds fsys).
Proof.
  unfold get_test_dummy_db_ds. apply keeps_get_self. intros d Hd.
  apply keeps_bind; [apply keeps_glob | intros l].
  apply keeps_bind; [keeps_step|intros _].
  - apply keeps_get_self. intros d' Hd'.
    apply keeps_bind; [|intros _; apply keeps_get_self; intros ? ?;
                        apply keeps_ret].
    pose proof (inv_sorted _ _ Hd' ts_dummy_db_source_fps) as Hs.
    repeat destruct_if.
    + eapply keeps_bind_post with (P := StronglySorted str_le);
        [apply keeps_slice_fps | |].
      * intros w a w' E. eapply slice_fps_sorted; eauto.
      * intros a Ha. apply keeps_setattr; [|discriminate].
        intros ? E. now inversion E; subst.
    + apply keeps_setattr; [exact Hs | discriminate].
    + apply keeps_bind; [apply keeps_lift | intros v].
      apply keeps_bind; [apply keeps_lift | intros n].
      eapply keeps_bind_post with (P := StronglySorted str_le);
        [apply keeps_slice_fps | |].
      * intros w a w' E. eapply slice_fps_sorted; eauto.
      * intros a Ha. apply keeps_setattr; [|discriminate].
        intros ? E. now inversion E; subst.
    + apply keeps_raise.
Qed.

Lemma keeps_get_test_query_db_ds (datasel : value) :
  keeps cfg (get_test_query_db_ds fsys datasel).
Proof.
  unfold get_test_query_db_ds. apply keeps_get_self. intros d Hd.
  repeat first [ apply keeps_get_self; intros ? ? | keeps_step ].
Qed.

Lemma keeps_get_custom_db_ds (source : string) (isdir : value) :
  keeps cfg (get_custom_db_ds fsys source isdir).
Proof.
  unfold get_custom_db_ds.
  repeat first [ apply keeps_get_self; intros ? ? | keeps_step ].
Qed.

Lemma keeps_run (c : call) : keeps cfg (run fsys c).
Proof.
  destruct c; simpl; (apply keeps_bind; [|intros ?; apply keeps_ret]).
  - apply keeps_get_train_ds.
  - apply keeps_get_val_ds.
  - apply keeps_get_test_dummy_db_ds.
  - apply keeps_get_test_query_db_ds.
  - apply keeps_get_custom_db_ds.
Qed.

(** Every state of a selector satisfies the invariant. *)
Lemma reachable_Inv (w : world) : reachable fsys cfg w -> Inv cfg (self w).
Proof.
  induction 1 as [log | w c _ IH].
  - apply Inv___init__.
  - now apply keeps_run.
Qed.

End Invariant.

(** ** Running the methods *)

Ltac run_method :=
  unfold get_train_ds, get_val_ds, get_test_dummy_db_ds,
    get_test_query_db_ds, get_custom_db_ds, open_lines, slice_fps, lift,
    bind, get_self, setattr, glob, ret, raise;
  simpl.

Lemma eqb_of_orb_false (a b : bool) : a || b = false -> a = false /\ b = false.
Proof. destruct a, b; auto. Qed.

(** No named tag of the dummy database is a numeric string. *)
Lemma isnumeric_not_named (tag : string) :
  isnumeric tag = true ->
  str_in tag ["10k_full"; "10k_30s"] = false
  /\ (tag =? "100k_full_icassp")%string = false.
Proof.
  intros H. unfold str_in. simpl.
  destruct (String.eqb_spec tag "10k_full") as [->|_]; [discriminate|].
  destruct (String.eqb_spec tag "10k_30s") as [->|_]; [discriminate|].
  destruct (String.eqb_spec tag "100k_full_icassp") as [->|_];
    [discriminate|].
  split; reflexivity.
Qed.

(** No instance has an attribute [datasel_test_db] or [datasel]. *)
Lemma getattr_datasel_test_db (d : Dataset) :
  getattr d "datasel_test_db" = inl (AttributeError "datasel_test_db").
Proof. reflexivity. Qed.

Lemma getattr_datasel (d : Dataset) :
  getattr d "datasel" = inl (AttributeError "datasel").
Proof. reflexivity. Qed.

(** ** The dummy database *)

(** C1 (the code departs from the claim).  For a numeric-string tag the
    claim wants the sorted scan of the dummy-db pool truncated to that
    count.  The numeric branch reads [self.datasel_test_db], an attribute
    that no instance has: for every numeric-string tag
    [get_test_dummy_db_ds] raises [AttributeError] and returns no policy;
    the stored list is left as the whole sorted scan. *)
Theorem get_test_dummy_db_ds_numeric_raises (fsys : filesystem) (w : world) :
  isnumeric (datasel_test_dummy_db (self w)) = true ->
  get_test_dummy_db_ds fsys w =
    (inl (AttributeError "datasel_test_db"),
     stored ts_dummy_db_source_fps
       (Some (scan fsys w (dummy_db_pattern (self w))))
       (scanned w (dummy_db_pattern (self w)))).
Proof.
  intros H. destruct (isnumeric_not_named _ H) as [H1 H2].
  run_method. unfold str_in in H1. simpl in H1.
  rewrite H1, H2, H. reflexivity.
Qed.

Lemma get_test_dummy_db_ds_numeric_raises_witness :
  get_test_dummy_db_ds Sample.fsys (Sample.dataset Sample.cfg_numeric) =
    (inl (AttributeError "datasel_test_db"),
     stored ts_dummy_db_source_fps
       (Some (scan Sample.fsys (Sample.dataset Sample.cfg_numeric)
                (dummy_db_pattern
                   (self (Sample.dataset Sample.cfg_numeric)))))
       (scanned (Sample.dataset Sample.cfg_numeric)
          (dummy_db_pattern (self (Sample.dataset Sample.cfg_numeric))))).
Proof.
  apply get_test_dummy_db_ds_numeric_raises. vm_compute. reflexivity.
Defined.

(** At the tag ["100"]: no policy, and the two files of the pool stored
    untruncated. *)
Example get_test_dummy_db_ds_tag_100 :
  fst (get_test_dummy_db_ds Sample.fsys (Sample.dataset Sample.cfg_numeric))
    = inl (AttributeError "datasel_test_db")
  /\ fps (self (snd (get_test_dummy_db_ds Sample.fsys
                       (Sample.dataset Sample.cfg_numeric))))
       ts_dummy_db_source_fps
     = Some ["data/music/test-dummy-db-100k-full/x/y.wav";
             "data/music/test-dummy-db-100k-full/z.wav"].
Proof. split; vm_compute; reflexivity. Qed.

(** ** Unsupported tags *)

(** C2 (as the code has it).  A tag outside the vocabulary of its resolver
    makes each of the three tag-driven resolvers raise
    [NotImplementedError] on that tag ([get_test_query_db_ds] being called
    with [datasel] omitted or falsy).  [get_train_ds] and
    [get_test_query_db_ds] leave the whole state as it was.
    [get_test_dummy_db_ds] checks its tag after the scan: it raises with
    [ts_dummy_db_source_fps] holding the sorted scan of the dummy-db pool,
    and every other file-list attribute unchanged. *)
Theorem unsupported_tag_raises (fsys : filesystem) (w : world) :
  (forall p,
      train_tag_supported (datasel_train (self w)) = false ->
      get_train_ds fsys p w
        = (inl (NotImplementedError (datasel_train (self w))), w))
  /\ (forall datasel,
         truthy datasel = false ->
         query_db_tag_supported (datasel_test_query_db (self w)) = false ->
         get_test_query_db_ds fsys datasel w
           = (inl (NotImplementedError (datasel_test_query_db (self w))), w))
  /\ (dummy_db_tag_supported (datasel_test_dummy_db (self w)) = false ->
      exists w',
        get_test_dummy_db_ds fsys w
          = (inl (NotImplementedError (datasel_test_dummy_db (self w))), w')
        /\ fps (self w') ts_dummy_db_source_fps
           = Some (scan fsys w (dummy_db_pattern (self w)))
        /\ forall a, a <> ts_dummy_db_source_fps ->
                     fps (self w') a = fps (self w) a).
Proof.
  split; [|split].
  - intros p H. apply eqb_of_orb_false in H. destruct H as [H1 H2].
    run_method. rewrite H1, H2. reflexivity.
  - intros datasel Hd H. apply eqb_of_orb_false in H. destruct H as [H1 H2].
    run_method. rewrite Hd, H1, H2. reflexivity.
  - intros H. apply eqb_of_orb_false in H. destruct H as [H H3].
    apply eqb_of_orb_false in H. destruct H as [H1 H2].
    unfold str_in in H1. simpl in H1.
    eexists. split; [|split].
    + run_method. rewrite H1, H2, H3. reflexivity.
    + reflexivity.
    + intros a Ha. destruct a; solve [reflexivity | congruence].
Qed.

Lemma unsupported_tag_raises_witness :
  get_train_ds Sample.fsys 0 (Sample.dataset Sample.cfg_unsupported)
    = (inl (NotImplementedError
              (datasel_train (self (Sample.dataset Sample.cfg_unsupported)))),
       Sample.dataset Sample.cfg_unsupported).
Proof.
  apply (unsupported_tag_raises Sample.fsys
           (Sample.dataset Sample.cfg_unsupported)).
  vm_compute. reflexivity.
Defined.

(** C2 as stated fails: with the unsupported tag ["bogus"],
    [get_test_dummy_db_ds] raises [NotImplementedError] and yet
    [ts_dummy_db_source_fps], [None] before the call, holds the sorted scan
    after it. *)
Lemma unsupported_dummy_db_tag_stores_scan :
  dummy_db_tag_supported
    (datasel_test_dummy_db (self (Sample.dataset Sample.cfg_unsupported)))
    = false
  /\ fst (get_test_dummy_db_ds Sample.fsys
            (Sample.dataset Sample.cfg_unsupported))
     = inl (NotImplementedError "bogus")
  /\ fps (self (Sample.dataset Sample.cfg_unsupported))
       ts_dummy_db_source_fps = None
  /\ fps (self (snd (get_test_dummy_db_ds Sample.fsys
                       (Sample.dataset Sample.cfg_unsupported))))
       ts_dummy_db_source_fps
     = Some ["data/music/test-dummy-db-100k-full/x/y.wav";
             "data/music/test-dummy-db-100k-full/z.wav"]
  /\ ~ (forall a,
          fps (self (snd (get_test_dummy_db_ds Sample.fsys
                            (Sample.dataset Sample.cfg_unsupported)))) a
          = fps (self (Sample.dataset Sample.cfg_unsupported)) a).
Proof.
  split; [vm_compute; reflexivity|].
  split; [vm_compute; reflexivity|].
  split; [vm_compute; reflexivity|].
  split; [vm_compute; reflexivity|].
  intros H. specialize (H ts_dummy_db_source_fps).
  vm_compute in H. discriminate H.
Qed.

(** ** The query and database pair *)

(** The attributes of a selector are those of its configuration. *)
Lemma reachable_attr {T : Type} (f : Dataset -> T) fsys cfg w :
  reachable fsys cfg w ->
  f (with_fps (fun _ => None) (self w)) = f (attributes_of_cfg cfg).
Proof. intros R. apply Inv_attr. eapply reachable_Inv; eauto. Qed.

(** C5.  Under the tag ["unseen_syn"], [get_test_query_db_ds] (called with
    [datasel] omitted or falsy) returns a query policy and a database
    policy such that the batch size of the first is twice that of the
    second, both anchor counts are the configured test batch size, the
    query policy has [reduce_batch_first_half=True], and both file lists
    are the one sorted scan of the pool, also stored in
    [ts_query_db_unseen_fps]. *)
Theorem unseen_syn_policies (fsys : filesystem) (cfg : Config) (w : world)
    (datasel : value) :
  reachable fsys cfg w ->
  TEST_QUERY_DB (DATA_SEL cfg) = "unseen_syn" ->
  truthy datasel = false ->
  let pool := scan fsys w (unseen_syn_pattern (self w)) in
  exists ds_query ds_db,
    get_test_query_db_ds fsys datasel w
      = (inr (ds_query, ds_db),
         stored ts_query_db_unseen_fps (Some pool)
           (scanned w (unseen_syn_pattern (self w))))
    /\ genUnbalSequence.bsz ds_query = 2 * genUnbalSequence.bsz ds_db
    /\ genUnbalSequence.n_anchor ds_query = genUnbalSequence.n_anchor ds_db
    /\ genUnbalSequence.n_anchor ds_query = TS_BATCH_SZ (BSZ cfg)
    /\ genUnbalSequence.reduce_batch_first_half ds_query = Some true
    /\ genUnbalSequence.fns_source_event_list ds_query = Some pool
    /\ genUnbalSequence.fns_source_event_list ds_db = Some pool.
Proof.
  intros R Htag Hd pool.
  pose proof (reachable_attr datasel_test_query_db fsys cfg w R) as Et.
  pose proof (reachable_attr ts_batch_sz fsys cfg w R) as Eb.
  simpl in Et, Eb. rewrite Htag in Et.
  do 2 eexists. split.
  { run_method. rewrite Hd, Et. simpl. reflexivity. }
  unfold plain_call.
  cbn [genUnbalSequence.bsz genUnbalSequence.n_anchor
       genUnbalSequence.reduce_batch_first_half
       genUnbalSequence.fns_source_event_list].
  repeat apply conj; try reflexivity; try exact Eb. lia.
Qed.

Lemma unseen_syn_policies_witness :
  exists ds_query ds_db,
    get_test_query_db_ds Sample.fsys VNone (Sample.dataset Sample.cfg_syn)
      = (inr (ds_query, ds_db),
         stored ts_query_db_unseen_fps
           (Some (scan Sample.fsys (Sample.dataset Sample.cfg_syn)
                    (unseen_syn_pattern
                       (self (Sample.dataset Sample.cfg_syn)))))
           (scanned (Sample.dataset Sample.cfg_syn)
              (unseen_syn_pattern (self (Sample.dataset Sample.cfg_syn)))))
    /\ genUnbalSequence.bsz ds_query = 2 * genUnbalSequence.bsz ds_db
    /\ genUnbalSequence.n_anchor ds_query = genUnbalSequence.n_anchor ds_db
    /\ genUnbalSequence.n_anchor ds_query = TS_BATCH_SZ (BSZ Sample.cfg_syn)
    /\ genUnbalSequence.reduce_batch_first_half ds_query = Some true
    /\ genUnbalSequence.fns_source_event_list ds_query
       = Some (scan Sample.fsys (Sample.dataset Sample.cfg_syn)
                 (unseen_syn_pattern (self (Sample.dataset Sample.cfg_syn))))
    /\ genUnbalSequence.fns_source_event_list ds_db
       = Some (scan Sample.fsys (Sample.dataset Sample.cfg_syn)
                 (unseen_syn_pattern (self (Sample.dataset Sample.cfg_syn)))).
Proof.
  apply (unseen_syn_policies Sample.fsys Sample.cfg_syn
           (Sample.dataset Sample.cfg_syn) VNone).
  - exact (reach_init Sample.fsys Sample.cfg_syn []).
  - vm_compute. reflexivity.
  - vm_compute. reflexivity.
Defined.

(** With a test batch size of 125: a query batch of 250 and a database
    batch of 125, 125 anchors in each. *)
Example unseen_syn_sizes :
  option_map
    (fun qd => (genUnbalSequence.bsz (fst qd),
                genUnbalSequence.n_anchor (fst qd),
                genUnbalSequence.bsz (snd qd),
                genUnbalSequence.n_anchor (snd qd)))
    (match fst (get_test_query_db_ds Sample.fsys VNone
                  (Sample.dataset Sample.cfg_syn)) with
     | inr qd => Some qd
     | inl _ => None
     end)
  = Some (250, 125, 125, 125).
Proof. vm_compute. reflexivity. Qed.

(** C10 (as the code has it).  A [datasel] argument that is falsy ([None],
    the empty string, [False], [0], an empty list) is ignored:
    [get_test_query_db_ds] returns or raises as with [datasel] omitted, and
    leaves the same state. *)
Theorem falsy_datasel_ignored (fsys : filesystem) (datasel : value)
    (w : world) :
  truthy datasel = false ->
  get_test_query_db_ds fsys datasel w = get_test_query_db_ds fsys VNone w.
Proof.
  intros H. unfold get_test_query_db_ds. rewrite H. reflexivity.
Qed.

Lemma falsy_datasel_ignored_witness :
  get_test_query_db_ds Sample.fsys (VStr "") (Sample.dataset Sample.cfg_syn)
    = get_test_query_db_ds Sample.fsys VNone (Sample.dataset Sample.cfg_syn).
Proof.
  apply falsy_datasel_ignored. vm_compute. reflexivity.
Defined.

(** C10 as stated fails: with the tag ["unseen_syn"] configured, passing
    [datasel="unseen_icassp"] raises [AttributeError], where the call
    without [datasel] returns the pair of policies. *)
Lemma truthy_datasel_raises :
  fst (get_test_query_db_ds Sample.fsys (VStr "unseen_icassp")
         (Sample.dataset Sample.cfg_syn))
    = inl (AttributeError "datasel")
  /\ (exists qd,
         fst (get_test_query_db_ds Sample.fsys VNone
                (Sample.dataset Sample.cfg_syn)) = inr qd)
  /\ fst (get_test_query_db_ds Sample.fsys (VStr "unseen_icassp")
            (Sample.dataset Sample.cfg_syn))
     <> fst (get_test_query_db_ds Sample.fsys VNone
               (Sample.dataset Sample.cfg_syn)).
Proof.
  split; [vm_compute; reflexivity|].
  split; [eexists; vm_compute; reflexivity|].
  vm_compute. discriminate.
Qed.

(** ** Anchor count and batch size *)

Ltac case_conditions H :=
  repeat match type of H with
         | context [if ?b then _ else _] => destruct b; simpl in H
         | context [match file_text ?f ?s with _ => _ end] =>
             destruct (file_text f s); simpl in H
         end.

(** C3 (as the code has it).  The train and validation policies carry the
    configured batch size and anchor count as they are; every test-side
    policy has the test batch size as its anchor count, and that size or
    twice that size as its batch size.  So, in a configuration whose train
    and validation anchor counts do not exceed their batch sizes and whose
    test batch size is not negative, the anchor count of every policy that
    a resolver returns is at most its batch size. *)
Theorem anchor_le_batch (fsys : filesystem) (cfg : Config) (w : world)
    (c : call) (ps : list policy) (p : policy) :
  reachable fsys cfg w ->
  TR_N_ANCHOR (BSZ cfg) <= TR_BATCH_SZ (BSZ cfg) ->
  VAL_N_ANCHOR (BSZ cfg) <= VAL_BATCH_SZ (BSZ cfg) ->
  0 <= TS_BATCH_SZ (BSZ cfg) ->
  fst (run fsys c w) = inr ps ->
  In p ps ->
  genUnbalSequence.n_anchor p <= genUnbalSequence.bsz p.
Proof.
  intros R Htr Hval Hts H Hin.
  pose proof (reachable_attr tr_batch_sz fsys cfg w R) as E1.
  pose proof (reachable_attr tr_n_anchor fsys cfg w R) as E2.
  pose proof (reachable_attr val_batch_sz fsys cfg w R) as E3.
  pose proof (reachable_attr val_n_anchor fsys cfg w R) as E4.
  pose proof (reachable_attr ts_batch_sz fsys cfg w R) as E5.
  simpl in E1, E2, E3, E4, E5.
  destruct c; unfold run in H; revert H; run_method; intros H;
    case_conditions H; try discriminate H;
    inversion H; subst ps; clear H;
    repeat (destruct Hin as [<-|Hin]; [simpl; lia|]);
    destruct Hin.
Qed.

Lemma anchor_le_batch_witness :
  exists ps p,
    fst (run Sample.fsys (Call_get_test_query_db_ds VNone)
           (Sample.dataset Sample.cfg_syn)) = inr ps
    /\ In p ps
    /\ genUnbalSequence.n_anchor p <= genUnbalSequence.bsz p.
Proof.
  refine (ex_intro _ _ (ex_intro _ _ (conj _ (conj _ _)))).
  - vm_compute. reflexivity.
  - left. reflexivity.
  - eapply (anchor_le_batch Sample.fsys Sample.cfg_syn
              (Sample.dataset Sample.cfg_syn)
              (Call_get_test_query_db_ds VNone) _ _
              (reach_init Sample.fsys Sample.cfg_syn [])).
    + vm_compute. discriminate.
    + vm_compute. discriminate.
    + vm_compute. discriminate.
    + vm_compute. reflexivity.
    + left. reflexivity.
Defined.

(** C3 as stated fails: a configuration with a train batch size of 8 and a
    train anchor count of 40 gives a train policy whose anchor count
    exceeds its batch size. *)
Lemma train_anchor_exceeds_batch :
  exists p,
    fst (get_train_ds Sample.fsys 0 (Sample.dataset Sample.cfg_small_batch))
      = inr p
    /\ genUnbalSequence.bsz p = 8
    /\ genUnbalSequence.n_anchor p = 40
    /\ ~ genUnbalSequence.n_anchor p <= genUnbalSequence.bsz p.
Proof.
  eexists. split; [vm_compute; reflexivity|].
  split; [reflexivity|]. split; [reflexivity|].
  vm_compute. intros H. apply H. reflexivity.
Qed.

(** ** Disabled augmentations *)

(** A guarded augmentation list whose toggle is off is [None] in every
    state of a selector. *)
Lemma reachable_guard fsys cfg w (a : fps_attr) :
  reachable fsys cfg w -> guard cfg a = false -> fps (self w) a = None.
Proof. intros R. apply inv_guard. eapply reachable_Inv; eauto. Qed.

(** C4 (as the code has it).  When a toggle is off, the parameter of that
    kind in the policy of that split carries [False] and [None] as its file
    list; the background and speech parameters of the train and validation
    policies and the background parameter of the synthesized query policy
    carry the configured SNR range of the split all the same.  The speech
    parameter of the synthesized query policy is [[False]] whatever the
    toggle, and the database policy is given no augmentation parameter. *)
Theorem disabled_toggle_parameters (fsys : filesystem) (cfg : Config)
    (w : world) :
  reachable fsys cfg w ->
  (forall rp,
      train_tag_supported (TRAIN (DATA_SEL cfg)) = true ->
      exists p w',
        get_train_ds fsys rp w = (inr p, w')
        /\ (TR_BG_AUG (TD_AUG cfg) = false ->
            genUnbalSequence.bg_mix_parameter p
            = Some [VBool false; VNone; ints_value (TR_SNR (TD_AUG cfg))])
        /\ (TR_IR_AUG (TD_AUG cfg) = false ->
            genUnbalSequence.ir_mix_parameter p
            = Some [VBool false; VNone])
        /\ (TR_SPEECH_AUG (TD_AUG cfg) = false ->
            genUnbalSequence.speech_mix_parameter p
            = Some [VBool false; VNone; ints_value (TR_SNR (TD_AUG cfg))]))
  /\ (forall max_song,
         exists p w',
           get_val_ds fsys max_song w = (inr p, w')
           /\ (VAL_BG_AUG (TD_AUG cfg) = false ->
               genUnbalSequence.bg_mix_parameter p
               = Some [VBool false; VNone; ints_value (VAL_SNR (TD_AUG cfg))])
           /\ (VAL_IR_AUG (TD_AUG cfg) = false ->
               genUnbalSequence.ir_mix_parameter p
               = Some [VBool false; VNone])
           /\ (VAL_SPEECH_AUG (TD_AUG cfg) = false ->
               genUnbalSequence.speech_mix_parameter p
               = Some [VBool false; VNone;
                       ints_value (VAL_SNR (TD_AUG cfg))]))
  /\ (forall datasel,
         truthy datasel = false ->
         TEST_QUERY_DB (DATA_SEL cfg) = "unseen_syn" ->
         exists ds_query ds_db w',
           get_test_query_db_ds fsys datasel w = (inr (ds_query, ds_db), w')
           /\ (TS_BG_AUG (TD_AUG cfg) = false ->
               genUnbalSequence.bg_mix_parameter ds_query
               = Some [VBool false; VNone; ints_value (TS_SNR (TD_AUG cfg))])
           /\ (TS_IR_AUG (TD_AUG cfg) = false ->
               genUnbalSequence.ir_mix_parameter ds_query
               = Some [VBool false; VNone])
           /\ genUnbalSequence.speech_mix_parameter ds_query
              = Some [VBool false]
           /\ genUnbalSequence.bg_mix_parameter ds_db = None
           /\ genUnbalSequence.ir_mix_parameter ds_db = None
           /\ genUnbalSequence.speech_mix_parameter ds_db = None).
Proof.
  intros R.
  pose proof (reachable_attr datasel_train fsys cfg w R) as Et.
  pose proof (reachable_attr datasel_test_query_db fsys cfg w R) as Eq.
  pose proof (reachable_attr tr_snr fsys cfg w R) as Es1.
  pose proof (reachable_attr ts_snr fsys cfg w R) as Es2.
  pose proof (reachable_attr val_snr fsys cfg w R) as Es3.
  pose proof (reachable_attr tr_use_bg_aug fsys cfg w R) as E1.
  pose proof (reachable_attr ts_use_bg_aug fsys cfg w R) as E2.
  pose proof (reachable_attr val_use_bg_aug fsys cfg w R) as E3.
  pose proof (reachable_attr tr_use_ir_aug fsys cfg w R) as E4.
  pose proof (reachable_attr ts_use_ir_aug fsys cfg w R) as E5.
  pose proof (reachable_attr val_use_ir_aug fsys cfg w R) as E6.
  pose proof (reachable_attr tr_use_speech_aug fsys cfg w R) as E7.
  pose proof (reachable_attr val_use_speech_aug fsys cfg w R) as E8.
  simpl in Et, Eq, Es1, Es2, Es3, E1, E2, E3, E4, E5, E6, E7, E8.
  pose proof (fun a => reachable_guard fsys cfg w a R) as G.
  split; [|split].
  - intros rp Htag. unfold train_tag_supported in Htag. rewrite <- Et in Htag.
    do 2 eexists. split.
    { run_method.
      destruct (datasel_train (self w) =? "10k_icassp")%string;
        [reflexivity|].
      simpl in Htag. rewrite Htag. reflexivity. }
    cbn [genUnbalSequence.bg_mix_parameter genUnbalSequence.ir_mix_parameter
         genUnbalSequence.speech_mix_parameter].
    simpl. rewrite E1, E4, E7, Es1.
    repeat apply conj; intros H; rewrite H; unfold mix3, mix2.
    + now rewrite (G tr_bg_fps H).
    + now rewrite (G tr_ir_fps H).
    + now rewrite (G tr_speech_fps H).
  - intros max_song. do 2 eexists. split; [run_method; reflexivity|].
    simpl. rewrite E3, E6, E8, Es3.
    repeat apply conj; intros H; rewrite H; unfold mix3, mix2.
    + now rewrite (G val_bg_fps H).
    + now rewrite (G val_ir_fps H).
    + now rewrite (G val_speech_fps H).
  - intros datasel Hd Htag. rewrite Htag in Eq.
    do 3 eexists. split.
    { run_method. rewrite Hd, Eq. simpl. reflexivity. }
    simpl. rewrite E2, E5, Es2.
    repeat apply conj; try reflexivity; intros H; rewrite H;
      unfold mix3, mix2.
    + now rewrite (G ts_bg_fps H).
    + now rewrite (G ts_ir_fps H).
Qed.

Lemma disabled_toggle_parameters_witness :
  exists p w',
    get_val_ds Sample.fsys 500 (Sample.dataset Sample.cfg_no_aug)
      = (inr p, w')
    /\ genUnbalSequence.bg_mix_parameter p
       = Some [VBool false; VNone;
               ints_value (VAL_SNR (TD_AUG Sample.cfg_no_aug))]
    /\ genUnbalSequence.ir_mix_parameter p = Some [VBool false; VNone]
    /\ genUnbalSequence.speech_mix_parameter p
       = Some [VBool false; VNone;
               ints_value (VAL_SNR (TD_AUG Sample.cfg_no_aug))].
Proof.
  destruct (disabled_toggle_parameters Sample.fsys Sample.cfg_no_aug
              (Sample.dataset Sample.cfg_no_aug)
              (reach_init Sample.fsys Sample.cfg_no_aug []))
    as (_ & Hval & _).
  destruct (Hval 500) as (p & w' & E & Hbg & Hir & Hsp).
  exists p, w'.
  exact (conj E (conj (Hbg eq_refl) (conj (Hir eq_refl) (Hsp eq_refl)))).
Defined.

(** C4 as stated fails: with every toggle off, the background parameter of
    the train policy still carries the SNR range [[0, 10]] in its third
    slot, not [None]. *)
Lemma disabled_background_keeps_snr :
  TR_BG_AUG (TD_AUG Sample.cfg_no_aug) = false
  /\ exists p,
       fst (get_train_ds Sample.fsys 0 (Sample.dataset Sample.cfg_no_aug))
         = inr p
       /\ genUnbalSequence.bg_mix_parameter p
          = Some [VBool false; VNone; VList [VInt 0; VInt 10]]
       /\ option_map (fun m => nth 2 m VNone)
            (genUnbalSequence.bg_mix_parameter p)
          <> Some VNone.
Proof.
  split; [reflexivity|].
  eexists. split; [vm_compute; reflexivity|].
  split; [reflexivity|]. simpl. discriminate.
Qed.

(** ** Custom sources *)

(** C6 (as the code has it).  [get_custom_db_ds] checks neither that the
    source exists nor that the resolved list has an entry.  In directory
    mode it returns the pass-through policy over the sorted scan, which is
    the empty list when the directory does not exist or holds no [.wav]
    file.  In manifest mode the exception of [open], and that of reading
    the file, go to the caller as they are, with the state unchanged; on a
    file that reads as text it returns the policy over the sorted lines,
    the empty list for an empty file. *)
Theorem get_custom_db_ds_outcome (fsys : filesystem) (source : string)
    (isdir : value) (w : world) :
  (is_True isdir = true ->
   get_custom_db_ds fsys source isdir w
     = (inr (plain_call (self w)
               (Some (scan fsys w (custom_pattern source)))
               (ts_batch_sz (self w)) (ts_batch_sz (self w))),
        scanned w (custom_pattern source)))
  /\ (is_True isdir = true ->
      listing fsys (List.length (scans w)) (custom_pattern source) = [] ->
      exists p,
        fst (get_custom_db_ds fsys source isdir w) = inr p
        /\ genUnbalSequence.fns_source_event_list p = Some [])
  /\ (is_True isdir = false ->
      file_text fsys source = OpenFails ->
      get_custom_db_ds fsys source isdir w = (inl (OSError source), w))
  /\ (is_True isdir = false ->
      forall e,
        file_text fsys source = ReadFails e ->
        get_custom_db_ds fsys source isdir w = (inl e, w))
  /\ (is_True isdir = false ->
      forall text,
        file_text fsys source = Text text ->
        get_custom_db_ds fsys source isdir w
          = (inr (plain_call (self w)
                    (Some (sorted (map before_newline (file_lines text))))
                    (ts_batch_sz (self w)) (ts_batch_sz (self w))),
             w)).
Proof.
  assert (D : is_True isdir = true ->
              get_custom_db_ds fsys source isdir w
              = (inr (plain_call (self w)
                        (Some (scan fsys w (custom_pattern source)))
                        (ts_batch_sz (self w)) (ts_batch_sz (self w))),
                 scanned w (custom_pattern source))).
  { intros H. run_method. rewrite H. reflexivity. }
  repeat apply conj.
  - exact D.
  - intros H E. rewrite (D H). eexists. split; [reflexivity|].
    unfold scan, plain_call.
    cbn [genUnbalSequence.fns_source_event_list].
    rewrite E. reflexivity.
  - intros H E. run_method. rewrite H, E. reflexivity.
  - intros H e E. run_method. rewrite H, E. reflexivity.
  - intros H text E. run_method. rewrite H, E. reflexivity.
Qed.

Lemma get_custom_db_ds_outcome_witness :
  get_custom_db_ds Sample.fsys "manifest.txt" (VBool false)
    (Sample.dataset Sample.cfg)
  = (inr (plain_call (self (Sample.dataset Sample.cfg))
            (Some (sorted (map before_newline
                             (file_lines
                                ("b.wav" ++ String "010"
                                   ("a.wav" ++ String "010" ""))))))
            (ts_batch_sz (self (Sample.dataset Sample.cfg)))
            (ts_batch_sz (self (Sample.dataset Sample.cfg)))),
     Sample.dataset Sample.cfg).
Proof.
  apply (get_custom_db_ds_outcome Sample.fsys "manifest.txt" (VBool false)
           (Sample.dataset Sample.cfg)).
  - reflexivity.
  - reflexivity.
Defined.

(** A manifest that opens and does not decode: the error of the reading,
    and the state as it was. *)
Example get_custom_db_ds_undecodable :
  get_custom_db_ds Sample.fsys "binary.dat" (VBool false)
    (Sample.dataset Sample.cfg)
  = (inl (UnicodeDecodeError "binary.dat"), Sample.dataset Sample.cfg).
Proof. vm_compute. reflexivity. Qed.

(** A manifest of two lines gives its two entries, sorted. *)
Example get_custom_db_ds_manifest :
  option_map genUnbalSequence.fns_source_event_list
    (match fst (get_custom_db_ds Sample.fsys "manifest.txt" (VBool false)
                  (Sample.dataset Sample.cfg)) with
     | inr p => Some p
     | inl _ => None
     end)
  = Some (Some ["a.wav"; "b.wav"]).
Proof. vm_compute. reflexivity. Qed.

(** C6 as stated fails: for a directory that does not exist, and for an
    empty manifest, [get_custom_db_ds] raises nothing and returns a policy
    with an empty file list. *)
Lemma get_custom_db_ds_returns_empty :
  (exists p,
      fst (get_custom_db_ds Sample.fsys "nowhere" (VBool true)
             (Sample.dataset Sample.cfg)) = inr p
      /\ genUnbalSequence.fns_source_event_list p = Some [])
  /\ (exists p,
         fst (get_custom_db_ds Sample.fsys "empty.txt" (VBool false)
                (Sample.dataset Sample.cfg)) = inr p
         /\ genUnbalSequence.fns_source_event_list p = Some []).
Proof.
  split; eexists; (split; [vm_compute; reflexivity | reflexivity]).
Qed.

(** ** The validation pool *)

(** C7 (as the code has it).  [get_val_ds(max_song)], for a [max_song]
    that is not negative, returns the policy over the first [max_song]
    entries of the sorted pool: [min(max_song, size of the pool)] entries,
    in sorted order, and the whole pool when [max_song] is at least its
    size.  It does not raise.  The list is also stored in
    [val_source_fps]. *)
Theorem get_val_ds_truncates (fsys : filesystem) (w : world) (max_song : Z) :
  0 <= max_song ->
  let pool := scan fsys w (val_pattern (self w)) in
  let files := firstn (Z.to_nat max_song) pool in
  Permutation (listing fsys (List.length (scans w)) (val_pattern (self w)))
    pool
  /\ StronglySorted str_le pool
  /\ exists p,
       get_val_ds fsys max_song w
         = (inr p,
            stored val_source_fps (Some files)
              (scanned w (val_pattern (self w))))
       /\ genUnbalSequence.fns_source_event_list p = Some files
       /\ Z.of_nat (List.length files)
          = Z.min max_song (Z.of_nat (List.length pool))
       /\ StronglySorted str_le files
       /\ (Z.of_nat (List.length pool) <= max_song -> files = pool).
Proof.
  intros H pool files.
  split; [apply sorted_Permutation|].
  split; [apply sorted_StronglySorted|].
  assert (E : (0 <=? max_song) = true) by now apply Z.leb_le.
  eexists. split; [|split; [|split; [|split]]].
  - run_method. unfold slice_to. rewrite E. reflexivity.
  - reflexivity.
  - unfold files. rewrite length_firstn. lia.
  - apply StronglySorted_firstn, sorted_StronglySorted.
  - intros Hn. unfold files. apply firstn_all2. lia.
Qed.

Lemma get_val_ds_truncates_witness :
  exists p,
    get_val_ds Sample.fsys_600 500 Sample.dataset_600
      = (inr p,
         stored val_source_fps
           (Some (firstn (Z.to_nat 500)
                    (scan Sample.fsys_600 Sample.dataset_600
                       (val_pattern (self Sample.dataset_600)))))
           (scanned Sample.dataset_600
              (val_pattern (self Sample.dataset_600))))
    /\ genUnbalSequence.fns_source_event_list p
       = Some (firstn (Z.to_nat 500)
                 (scan Sample.fsys_600 Sample.dataset_600
                    (val_pattern (self Sample.dataset_600))))
    /\ Z.of_nat
         (List.length
            (firstn (Z.to_nat 500)
               (scan Sample.fsys_600 Sample.dataset_600
                  (val_pattern (self Sample.dataset_600)))))
       = Z.min 500
           (Z.of_nat
              (List.length
                 (scan Sample.fsys_600 Sample.dataset_600
                    (val_pattern (self Sample.dataset_600)))))
    /\ StronglySorted str_le
         (firstn (Z.to_nat 500)
            (scan Sample.fsys_600 Sample.dataset_600
               (val_pattern (self Sample.dataset_600))))
    /\ (Z.of_nat
          (List.length
             (scan Sample.fsys_600 Sample.dataset_600
                (val_pattern (self Sample.dataset_600)))) <= 500 ->
        firstn (Z.to_nat 500)
          (scan Sample.fsys_600 Sample.dataset_600
             (val_pattern (self Sample.dataset_600)))
        = scan Sample.fsys_600 Sample.dataset_600
            (val_pattern (self Sample.dataset_600))).
Proof.
  apply (get_val_ds_truncates Sample.fsys_600 Sample.dataset_600 500).
  vm_compute. discriminate.
Defined.

(** C7 as stated fails at a negative [max_song]: on the sample pool of
    three files, [get_val_ds(-1)] returns the first two entries, which is
    not the pool truncated to [min(-1, 3)] entries. *)
Lemma get_val_ds_minus_one_not_min :
  List.length
    (scan Sample.fsys (Sample.dataset Sample.cfg)
       (val_pattern (self (Sample.dataset Sample.cfg)))) = 3%nat
  /\ exists p files,
       fst (get_val_ds Sample.fsys (-1) (Sample.dataset Sample.cfg)) = inr p
       /\ genUnbalSequence.fns_source_event_list p = Some files
       /\ List.length files = 2%nat
       /\ Z.of_nat (List.length files) <> Z.min (-1) 3
       /\ files
          <> firstn (Z.to_nat (Z.min (-1) 3))
               (scan Sample.fsys (Sample.dataset Sample.cfg)
                  (val_pattern (self (Sample.dataset Sample.cfg)))).
Proof.
  split; [vm_compute; reflexivity|].
  do 2 eexists. split; [vm_compute; reflexivity|].
  split; [reflexivity|].
  split; [reflexivity|].
  split; [vm_compute; discriminate|].
  vm_compute. discriminate.
Qed.

(** A negative [max_song] is a bound from the end of the list: on the
    sample pool of three files, [max_song=-1] leaves the first two. *)
Example get_val_ds_negative_max_song :
  option_map genUnbalSequence.fns_source_event_list
    (match fst (get_val_ds Sample.fsys (-1) (Sample.dataset Sample.cfg)) with
     | inr p => Some p
     | inl _ => None
     end)
  = Some (Some ["data/music/val-query-db-500-30s/db/1.wav";
                "data/music/val-query-db-500-30s/db/3.wav"]).
Proof. vm_compute. reflexivity. Qed.

(** On the pool of 600 files: [max_song=500] gives the 500 files [000.wav]
    to [499.wav] in this order, [max_song=10000] all the 600. *)
Example get_val_ds_600_pool :
  option_map genUnbalSequence.fns_source_event_list
    (match fst (get_val_ds Sample.fsys_600 500 Sample.dataset_600) with
     | inr p => Some p
     | inl _ => None
     end)
  = Some (Some (map Sample.val_file (seq 0 500)))
  /\ option_map genUnbalSequence.fns_source_event_list
       (match fst (get_val_ds Sample.fsys_600 10000 Sample.dataset_600) with
        | inr p => Some p
        | inl _ => None
        end)
     = Some (Some (map Sample.val_file (seq 0 600))).
Proof. split; vm_compute; reflexivity. Qed.

(** ** Construction *)

Lemma scan_if_run fsys t a pat w :
  scan_if fsys t a pat w = (inr tt, after_scan_if fsys t a pat w).
Proof. destruct t; reflexivity. Qed.

Lemma bind_scan_if {B : Type} fsys t a pat (k : unit -> M B) w :
  bind (scan_if fsys t a pat) k w = k tt (after_scan_if fsys t a pat w).
Proof. unfold bind. now rewrite scan_if_run. Qed.

Lemma __set_augmentation_fps_run fsys w :
  __set_augmentation_fps fsys w = (inr tt, after_set_augmentation_fps fsys w).
Proof.
  unfold __set_augmentation_fps, after_set_augmentation_fps.
  unfold bind at 1. unfold get_self at 1. cbv beta iota zeta.
  rewrite !bind_scan_if.
  match goal with
  | |- _ ?x = _ => generalize x; intros w7
  end.
  unfold bind, glob, setattr. cbv beta iota.
  rewrite scan_if_run. reflexivity.
Qed.

Lemma bind_setattr {B : Type} a v (k : unit -> M B) w :
  bind (setattr a v) k w = k tt (stored a v w).
Proof. reflexivity. Qed.

Lemma bind___set_augmentation_fps {B : Type} fsys (k : unit -> M B) w :
  bind (__set_augmentation_fps fsys) k w
  = k tt (after_set_augmentation_fps fsys w).
Proof. unfold bind. now rewrite __set_augmentation_fps_run. Qed.

Lemma extends_refl {A : Type} (a : list A) : extends a a.
Proof. exists []. now rewrite app_nil_r. Qed.

Lemma extends_trans {A : Type} (a b c : list A) :
  extends a b -> extends b c -> extends a c.
Proof.
  intros [l ->] [l' ->]. exists (l ++ l')%list. now rewrite app_assoc.
Qed.

Lemma scans_after_scan_if fsys t a pat w :
  extends (scans w) (scans (after_scan_if fsys t a pat w)).
Proof.
  destruct t; [now exists [pat] | apply extends_refl].
Qed.

Lemma fps_after_scan_if fsys t a pat w b :
  a <> b ->
  fps (self (after_scan_if fsys t a pat w)) b = fps (self w) b.
Proof.
  intros N. destruct t; [|reflexivity].
  unfold after_scan_if, stored, scanned, set_fps, with_fps.
  cbn [self fps]. destruct (fps_attr_eq_dec a b); congruence.
Qed.

(** [__set_augmentation_fps] scans the test directory of the speech root,
    whatever the toggles, and stores the sorted scan. *)
Lemma after_set_augmentation_fps_test_speech fsys w :
  let pat := speech_root_dir (self w) ++ "test/**/*.wav" in
  exists before after,
    scans (after_set_augmentation_fps fsys w)
      = (scans w ++ before ++ [pat] ++ after)%list
    /\ fps (self (after_set_augmentation_fps fsys w)) ts_speech_fps
       = Some (sorted
                 (listing fsys (List.length (scans w ++ before)%list) pat)).
Proof.
  intros pat. unfold after_set_augmentation_fps. cbv zeta. fold pat.
  match goal with
  | |- context [after_scan_if fsys true ts_speech_fps pat ?x] => set (w7 := x)
  end.
  assert (E7 : extends (scans w) (scans w7)).
  { unfold w7.
    repeat (eapply extends_trans; [|apply scans_after_scan_if]).
    apply extends_refl. }
  destruct E7 as [before E7].
  match goal with
  | |- context [after_scan_if fsys ?t val_speech_fps ?p ?x] =>
      destruct (scans_after_scan_if fsys t val_speech_fps p x) as [after E9]
  end.
  exists before, after. split.
  - rewrite E9.
    change (scans (after_scan_if fsys true ts_speech_fps pat w7))
      with (scans w7 ++ [pat])%list.
    rewrite E7, <- !app_assoc. reflexivity.
  - rewrite fps_after_scan_if by discriminate.
    rewrite <- E7. reflexivity.
Qed.

Lemma __init___run fsys cfg log :
  __init__ fsys cfg log
  = (inr tt,
     source_None
       (after_set_augmentation_fps fsys
          (aug_None {| self := attributes_of_cfg cfg; scans := log |}))).
Proof.
  unfold __init__.
  rewrite !bind_setattr, bind___set_augmentation_fps, !bind_setattr.
  reflexivity.
Qed.

Lemma scans_source_None w : scans (source_None w) = scans w.
Proof. reflexivity. Qed.

Lemma fps_source_None w a :
  aug_attr a = true -> fps (self (source_None w)) a = fps (self w) a.
Proof. destruct a; intros H; try discriminate H; reflexivity. Qed.

(** ** The test speech directory *)

(** C8 (the code departs from the claim).  The claim wants the root of a
    disabled augmentation never scanned.  [__set_augmentation_fps] guards
    eight of its nine scans by their toggles and leaves the ninth without
    a guard: for every configuration, so also with [TS_SPEECH_AUG] off,
    [Dataset(cfg)] scans the [test] directory of the speech root and
    stores the sorted scan in [ts_speech_fps]. *)
Theorem test_speech_always_scanned (fsys : filesystem) (cfg : Config)
    (log : list string) :
  let w := snd (__init__ fsys cfg log) in
  let pat := SPEECH_ROOT_DIR (DIR cfg) ++ "test/**/*.wav" in
  exists before after,
    scans w = (log ++ before ++ [pat] ++ after)%list
    /\ fps (self w) ts_speech_fps
       = Some (sorted (listing fsys (List.length (log ++ before)%list) pat)).
Proof.
  intros w pat. subst w pat. rewrite __init___run. cbn [snd].
  rewrite scans_source_None, fps_source_None by reflexivity.
  set (w0 := aug_None _).
  assert (E1 : scans w0 = log) by reflexivity.
  assert (E2 : speech_root_dir (self w0) = SPEECH_ROOT_DIR (DIR cfg))
    by reflexivity.
  clearbody w0.
  destruct (after_set_augmentation_fps_test_speech fsys w0)
    as (before & after & Es & Ef).
  rewrite E1, E2 in Es. rewrite E1, E2 in Ef.
  exists before, after. split; assumption.
Qed.

(** With every toggle off, the one scan of [Dataset(cfg)] is that of the
    test speech directory, and [ts_speech_fps] is a list, not [None]. *)
Example test_speech_scanned_when_off :
  TS_SPEECH_AUG (TD_AUG Sample.cfg_no_aug) = false
  /\ scans (Sample.dataset Sample.cfg_no_aug)
     = ["data/aug/speech/test/**/*.wav"]
  /\ fps (self (Sample.dataset Sample.cfg_no_aug)) ts_speech_fps
     = Some ["data/aug/speech/test/s.wav"]
  /\ fps (self (Sample.dataset Sample.cfg_no_aug)) tr_speech_fps = None.
Proof. repeat apply conj; vm_compute; reflexivity. Qed.

(** ** Determinism *)

Section Unchanged.

Variable fsys : filesystem.
Hypothesis fsys_unchanged : unchanged fsys.

Lemma scan_pool (w : world) (pat : string) : scan fsys w pat = pool fsys pat.
Proof. apply sorted_of_Permutation, fsys_unchanged. Qed.

Lemma sorted_listing_pool (k : nat) (pat : string) :
  sorted (listing fsys k pat) = pool fsys pat.
Proof. apply sorted_of_Permutation, fsys_unchanged. Qed.

Lemma self_after_scan_if t a pat w w' :
  self w = self w' ->
  self (after_scan_if fsys t a pat w) = self (after_scan_if fsys t a pat w').
Proof.
  intros H. destruct t; [|exact H].
  unfold after_scan_if, stored, scanned. cbn [self].
  now rewrite !scan_pool, H.
Qed.

Lemma self_after_set_augmentation_fps w w' :
  self w = self w' ->
  self (after_set_augmentation_fps fsys w)
  = self (after_set_augmentation_fps fsys w').
Proof.
  intros H. unfold after_set_augmentation_fps. cbv zeta. rewrite H.
  repeat apply self_after_scan_if. exact H.
Qed.

(** Two constructions from one configuration give the same instance. *)
Lemma __init___deterministic cfg log log' :
  self (snd (__init__ fsys cfg log)) = self (snd (__init__ fsys cfg log')).
Proof.
  rewrite !__init___run. cbn [snd].
  unfold source_None, stored. cbn [self].
  do 8 apply f_equal.
  apply self_after_set_augmentation_fps.
  unfold aug_None, stored. cbn [self]. reflexivity.
Qed.

End Unchanged.

(** ** What the resolvers leave alone *)

Lemma same_inputs_refl d : same_inputs d d.
Proof. split; reflexivity. Qed.

Lemma same_inputs_sym d d' : same_inputs d d' -> same_inputs d' d.
Proof. intros [H1 H2]. split; [now symmetry|]. intros a Ha. symmetry; auto. Qed.

Lemma same_inputs_trans d1 d2 d3 :
  same_inputs d1 d2 -> same_inputs d2 d3 -> same_inputs d1 d3.
Proof.
  intros [H1 H2] [H3 H4]. split; [congruence|].
  intros a Ha. rewrite H2, H4; auto.
Qed.

Lemma frames_ret {A : Type} (a : A) : frames (ret a).
Proof. intros w. apply same_inputs_refl. Qed.

Lemma frames_raise {A : Type} (e : exn) : frames (@raise A e).
Proof. intros w. apply same_inputs_refl. Qed.

Lemma frames_lift {A : Type} (r : exn + A) : frames (lift r).
Proof. destruct r; [apply frames_raise | apply frames_ret]. Qed.

Lemma frames_bind {A B : Type} (m : M A) (k : A -> M B) :
  frames m -> (forall a, frames (k a)) -> frames (bind m k).
Proof.
  intros Hm Hk w. unfold bind. specialize (Hm w).
  destruct (m w) as [[e|a] w']; simpl in *; [exact Hm|].
  eapply same_inputs_trans; [exact Hm | apply Hk].
Qed.

Lemma frames_get_self : frames get_self.
Proof. intros w. apply same_inputs_refl. Qed.

Lemma frames_glob fsys pat : frames (glob fsys pat).
Proof. intros w. apply same_inputs_refl. Qed.

Lemma frames_open_lines fsys source : frames (open_lines fsys source).
Proof.
  unfold open_lines.
  destruct (file_text fsys source);
    first [apply frames_ret | apply frames_raise].
Qed.

Lemma frames_slice_fps v n : frames (slice_fps v n).
Proof. destruct v; [apply frames_ret | apply frames_raise]. Qed.

Lemma frames_setattr a v : aug_attr a = false -> frames (setattr a v).
Proof.
  intros H w. split; [reflexivity|].
  intros b Hb. unfold setattr, set_fps, with_fps. cbn [snd self fps].
  destruct (fps_attr_eq_dec a b); [congruence | reflexivity].
Qed.

Ltac frames_step :=
  lazymatch goal with
  | |- frames (bind _ _) => apply frames_bind; [|intros ?]
  | |- frames (ret _) => apply frames_ret
  | |- frames (raise _) => apply frames_raise
  | |- frames (lift _) => apply frames_lift
  | |- frames get_self => apply frames_get_self
  | |- frames (glob _ _) => apply frames_glob
  | |- frames (open_lines _ _) => apply frames_open_lines
  | |- frames (slice_fps _ _) => apply frames_slice_fps
  | |- frames (setattr _ _) => apply frames_setattr; reflexivity
  | |- frames (if ?b then _ else _) => destruct b
  end.

Lemma frames_run fsys c : frames (run fsys c).
Proof.
  destruct c; unfold run, get_train_ds, get_val_ds, get_test_dummy_db_ds,
    get_test_query_db_ds, get_custom_db_ds; repeat frames_step.
Qed.

Ltac case_goal :=
  repeat match goal with
         | |- context [if ?b then _ else _] => destruct b; simpl
         | |- context [match file_text ?f ?s with _ => _ end] =>
             destruct (file_text f s); simpl
         end.

Section Determinism.

Variable fsys : filesystem.
Hypothesis fsys_unchanged : unchanged fsys.
Variable cfg : Config.

(** Every state of a selector has the inputs that construction gave. *)
Lemma reachable_same_inputs (w : world) :
  reachable fsys cfg w ->
  same_inputs (self (snd (__init__ fsys cfg []))) (self w).
Proof.
  induction 1 as [log | w c _ IH].
  - rewrite (__init___deterministic fsys fsys_unchanged cfg [] log).
    apply same_inputs_refl.
  - eapply same_inputs_trans; [exact IH | apply frames_run].
Qed.

(** A resolver's outcome depends on the state through these inputs
    only. *)
Lemma run_same_inputs (c : call) (w w' : world) :
  same_inputs (self w) (self w') ->
  fst (run fsys c w) = fst (run fsys c w').
Proof.
  intros [Hc Ha].
  pose proof (Ha tr_bg_fps eq_refl) as A1.
  pose proof (Ha ts_bg_fps eq_refl) as A2.
  pose proof (Ha val_bg_fps eq_refl) as A3.
  pose proof (Ha tr_ir_fps eq_refl) as A4.
  pose proof (Ha ts_ir_fps eq_refl) as A5.
  pose proof (Ha val_ir_fps eq_refl) as A6.
  pose proof (Ha tr_speech_fps eq_refl) as A7.
  pose proof (Ha val_speech_fps eq_refl) as A8.
  clear Ha.
  destruct w as [d l], w' as [d' l'].
  destruct d, d'. cbn [self fps] in *.
  unfold with_fps in Hc. simpl in Hc. injection Hc as <-.
  repeat match goal with H : _ = _ |- _ => subst end.
  destruct c; unfold run; run_method; case_goal;
    rewrite ?A1, ?A2, ?A3, ?A4, ?A5, ?A6, ?A7, ?A8;
    rewrite ?(sorted_listing_pool fsys fsys_unchanged);
    reflexivity.
Qed.

(** The file lists of a returned policy are sorted. *)
Lemma run_sorted (c : call) (w : world) ps p l :
  fst (run fsys c w) = inr ps ->
  In p ps -> In l (policy_file_lists p) -> StronglySorted str_le l.
Proof.
  intros H Hp Hl.
  destruct c; unfold run in H; revert H; run_method; intros H;
    case_conditions H; try discriminate H;
    inversion H; subst ps; clear H;
    repeat (destruct Hp as [<-|Hp];
            [ unfold policy_file_lists in Hl; simpl in Hl;
              repeat (destruct Hl as [<-|Hl];
                      [ first [ apply sorted_StronglySorted
                              | apply StronglySorted_slice_to,
                                  sorted_StronglySorted ] |]);
              destruct Hl |]);
    destruct Hp.
Qed.

End Determinism.

(** The sample file system lists every pattern in one of two orders. *)
Lemma Sample_fsys_unchanged : unchanged Sample.fsys.
Proof.
  intros k k' pat. simpl.
  destruct (Nat.even k), (Nat.even k');
    auto using Permutation_refl, Permutation_rev, Permutation_sym.
Qed.

(** C9.  On a file system whose files do not change (a scan may list them
    in any order), a resolver called in any two states of selectors built
    from one configuration returns the same policies, or raises the same
    exception; so do two calls in a row on one selector.  Every file list
    of a returned policy is sorted in ascending order of the paths, and so
    is every file list stored on the selector, those of the augmentations
    included. *)
Theorem resolution_deterministic (fsys : filesystem) (cfg : Config)
    (w w' : world) (c : call) :
  unchanged fsys ->
  reachable fsys cfg w ->
  reachable fsys cfg w' ->
  fst (run fsys c w) = fst (run fsys c w')
  /\ fst (run fsys c (snd (run fsys c w))) = fst (run fsys c w)
  /\ (forall ps p l,
         fst (run fsys c w) = inr ps ->
         In p ps -> In l (policy_file_lists p) -> StronglySorted str_le l)
  /\ (forall a l, fps (self w) a = Some l -> StronglySorted str_le l).
Proof.
  intros U R R'. repeat apply conj.
  - apply run_same_inputs; [exact U|].
    eapply same_inputs_trans.
    + apply same_inputs_sym, (reachable_same_inputs fsys U cfg w R).
    + apply (reachable_same_inputs fsys U cfg w' R').
  - apply run_same_inputs; [exact U|].
    apply same_inputs_sym, frames_run.
  - intros ps p l. apply run_sorted.
  - apply inv_sorted with (cfg := cfg). eapply reachable_Inv; eauto.
Qed.

Lemma resolution_deterministic_witness :
  fst (run Sample.fsys (Call_get_train_ds 0) (Sample.dataset Sample.cfg))
  = fst (run Sample.fsys (Call_get_train_ds 0)
           (snd (run Sample.fsys (Call_get_val_ds 500)
                   (Sample.dataset Sample.cfg)))).
Proof.
  exact (proj1 (resolution_deterministic Sample.fsys Sample.cfg
                  (Sample.dataset Sample.cfg)
                  (snd (run Sample.fsys (Call_get_val_ds 500)
                          (Sample.dataset Sample.cfg)))
                  (Call_get_train_ds 0)
                  Sample_fsys_unchanged
                  (reach_init Sample.fsys Sample.cfg [])
                  (reach_call Sample.fsys Sample.cfg
                     (Sample.dataset Sample.cfg) (Call_get_val_ds 500)
                     (reach_init Sample.fsys Sample.cfg [])))).
Defined.

(** The scans of the sample file system come in opposite orders, and the
    two train policies list the same sorted files. *)
Example get_train_ds_twice :
  listing Sample.fsys 0 "data/music/**/*.wav"
  <> listing Sample.fsys 1 "data/music/**/*.wav"
  /\ fst (get_train_ds Sample.fsys 0 (Sample.dataset Sample.cfg))
     = fst (get_train_ds Sample.fsys 0
              (scanned (Sample.dataset Sample.cfg) "elsewhere")).
Proof. split; [vm_compute; discriminate | vm_compute; reflexivity]. Qed.


(** * Further properties *)

(** ** The named tags of the dummy database *)

(** X1.  Under the tags ["10k_full"] and ["10k_30s"],
    [get_test_dummy_db_ds] returns the pass-through policy over the first
    10000 entries of the sorted scan of the dummy pool, all of them when
    the pool is smaller; under ["100k_full_icassp"], over the whole sorted
    scan.  The list of the policy is the one stored in
    [ts_dummy_db_source_fps], and the pool is scanned once. *)
Theorem get_test_dummy_db_ds_named_tags (fsys : filesystem) (w : world) :
  let pool := scan fsys w (dummy_db_pattern (self w)) in
  let small := firstn (Z.to_nat 10000) pool in
  (str_in (datasel_test_dummy_db (self w)) ["10k_full"; "10k_30s"] = true ->
   exists w',
     get_test_dummy_db_ds fsys w
       = (inr (plain_call (self w) (Some small)
                 (ts_batch_sz (self w)) (ts_batch_sz (self w))), w')
     /\ fps (self w') ts_dummy_db_source_fps = Some small
     /\ scans w' = (scans w ++ [dummy_db_pattern (self w)])%list
     /\ Z.of_nat (List.length small)
        = Z.min 10000 (Z.of_nat (List.length pool))
     /\ (Z.of_nat (List.length pool) <= 10000 -> small = pool))
  /\ (datasel_test_dummy_db (self w) = "100k_full_icassp" ->
      exists w',
        get_test_dummy_db_ds fsys w
          = (inr (plain_call (self w) (Some pool)
                    (ts_batch_sz (self w)) (ts_batch_sz (self w))), w')
        /\ fps (self w') ts_dummy_db_source_fps = Some pool
        /\ scans w' = (scans w ++ [dummy_db_pattern (self w)])%list).
Proof.
  intros pool small. split.
  - intros H. unfold str_in in H. simpl in H.
    eexists. split; [|split; [|split; [|split]]].
    + run_method. rewrite H. simpl. reflexivity.
    + reflexivity.
    + reflexivity.
    + unfold small. rewrite length_firstn. lia.
    + intros Hn. unfold small. apply firstn_all2. lia.
  - intros H.
    eexists. split; [|split].
    + run_method. rewrite H. simpl. reflexivity.
    + reflexivity.
    + reflexivity.
Qed.

Lemma get_test_dummy_db_ds_named_tags_witness :
  exists w',
    get_test_dummy_db_ds Testbed.fsys (Testbed.dataset Testbed.cfg_full)
      = (inr (plain_call (self (Testbed.dataset Testbed.cfg_full))
                (Some (scan Testbed.fsys (Testbed.dataset Testbed.cfg_full)
                         (dummy_db_pattern
                            (self (Testbed.dataset Testbed.cfg_full)))))
                (ts_batch_sz (self (Testbed.dataset Testbed.cfg_full)))
                (ts_batch_sz (self (Testbed.dataset Testbed.cfg_full)))),
         w')
    /\ fps (self w') ts_dummy_db_source_fps
       = Some (scan Testbed.fsys (Testbed.dataset Testbed.cfg_full)
                 (dummy_db_pattern (self (Testbed.dataset Testbed.cfg_full))))
    /\ scans w'
       = (scans (Testbed.dataset Testbed.cfg_full)
            ++ [dummy_db_pattern (self (Testbed.dataset Testbed.cfg_full))])%list.
Proof.
  apply (proj2 (get_test_dummy_db_ds_named_tags Testbed.fsys
                  (Testbed.dataset Testbed.cfg_full))).
  vm_compute. reflexivity.
Defined.

(** The two files of the sample pool, in code-point order: [10.wav] before
    [9.wav]. *)
Example get_test_dummy_db_ds_10k_full :
  option_map genUnbalSequence.fns_source_event_list
    (match fst (get_test_dummy_db_ds Testbed.fsys
                  (Testbed.dataset Testbed.cfg)) with
     | inr p => Some p
     | inl _ => None
     end)
  = Some (Some ["data/music/test-dummy-db-100k-full/10.wav";
                "data/music/test-dummy-db-100k-full/9.wav"]).
Proof. vm_compute. reflexivity. Qed.

(** ** The pre-paired protocol *)

(** X2.  Under the tag ["unseen_icassp"], [get_test_query_db_ds] (with
    [datasel] omitted or falsy) scans the [query] directory and then the
    [db] directory of the pre-paired set, stores the two sorted scans in
    [ts_query_icassp_fps] and [ts_db_icassp_fps], and returns two
    pass-through policies over them: the test batch size as batch size and
    as anchor count, no augmentation parameter, and the last batch kept. *)
Theorem unseen_icassp_policies (fsys : filesystem) (w : world)
    (datasel : value) :
  truthy datasel = false ->
  datasel_test_query_db (self w) = "unseen_icassp" ->
  let queries := scan fsys w (icassp_query_pattern (self w)) in
  let w1 := scanned w (icassp_query_pattern (self w)) in
  let dbs := scan fsys w1 (icassp_db_pattern (self w)) in
  exists w',
    get_test_query_db_ds fsys datasel w
      = (inr (plain_call (self w) (Some queries)
                (ts_batch_sz (self w)) (ts_batch_sz (self w)),
              plain_call (self w) (Some dbs)
                (ts_batch_sz (self w)) (ts_batch_sz (self w))), w')
    /\ fps (self w') ts_query_icassp_fps = Some queries
    /\ fps (self w') ts_db_icassp_fps = Some dbs
    /\ scans w'
       = (scans w ++ [icassp_query_pattern (self w);
                      icassp_db_pattern (self w)])%list.
Proof.
  intros Hd Ht queries w1 dbs.
  eexists. split; [|split; [|split]].
  - run_method. rewrite Hd, Ht. simpl. reflexivity.
  - reflexivity.
  - reflexivity.
  - simpl. rewrite <- app_assoc. reflexivity.
Qed.

Lemma unseen_icassp_policies_witness :
  exists w',
    get_test_query_db_ds Testbed.fsys VNone (Testbed.dataset Testbed.cfg)
      = (inr (plain_call (self (Testbed.dataset Testbed.cfg))
                (Some (scan Testbed.fsys (Testbed.dataset Testbed.cfg)
                         (icassp_query_pattern
                            (self (Testbed.dataset Testbed.cfg)))))
                (ts_batch_sz (self (Testbed.dataset Testbed.cfg)))
                (ts_batch_sz (self (Testbed.dataset Testbed.cfg))),
              plain_call (self (Testbed.dataset Testbed.cfg))
                (Some (scan Testbed.fsys
                         (scanned (Testbed.dataset Testbed.cfg)
                            (icassp_query_pattern
                               (self (Testbed.dataset Testbed.cfg))))
                         (icassp_db_pattern
                            (self (Testbed.dataset Testbed.cfg)))))
                (ts_batch_sz (self (Testbed.dataset Testbed.cfg)))
                (ts_batch_sz (self (Testbed.dataset Testbed.cfg)))), w')
    /\ fps (self w') ts_query_icassp_fps
       = Some (scan Testbed.fsys (Testbed.dataset Testbed.cfg)
                 (icassp_query_pattern (self (Testbed.dataset Testbed.cfg))))
    /\ fps (self w') ts_db_icassp_fps
       = Some (scan Testbed.fsys
                 (scanned (Testbed.dataset Testbed.cfg)
                    (icassp_query_pattern
                       (self (Testbed.dataset Testbed.cfg))))
                 (icassp_db_pattern (self (Testbed.dataset Testbed.cfg))))
    /\ scans w'
       = (scans (Testbed.dataset Testbed.cfg)
            ++ [icassp_query_pattern (self (Testbed.dataset Testbed.cfg));
                icassp_db_pattern (self (Testbed.dataset Testbed.cfg))])%list.
Proof.
  apply (unseen_icassp_policies Testbed.fsys (Testbed.dataset Testbed.cfg)
           VNone).
  - vm_compute. reflexivity.
  - vm_compute. reflexivity.
Defined.

(** Two queries and three database files, each list sorted. *)
Example unseen_icassp_lists :
  option_map
    (fun qd => (genUnbalSequence.fns_source_event_list (fst qd),
                genUnbalSequence.fns_source_event_list (snd qd)))
    (match fst (get_test_query_db_ds Testbed.fsys VNone
                  (Testbed.dataset Testbed.cfg)) with
     | inr qd => Some qd
     | inl _ => None
     end)
  = Some (Some ["data/music/test-query-db-500-30s/query/1.wav";
                "data/music/test-query-db-500-30s/query/2.wav"],
          Some ["data/music/test-query-db-500-30s/db/a.wav";
                "data/music/test-query-db-500-30s/db/b.wav";
                "data/music/test-query-db-500-30s/db/c.wav"]).
Proof. vm_compute. reflexivity. Qed.

(** ** A truthy [datasel] *)

(** X3.  [get_test_query_db_ds] called with a truthy [datasel] raises
    [AttributeError] at once, whatever the configured tag: nothing is
    scanned and nothing is stored. *)
Theorem truthy_datasel_raises_at_once (fsys : filesystem) (datasel : value)
    (w : world) :
  truthy datasel = true ->
  get_test_query_db_ds fsys datasel w = (inl (AttributeError "datasel"), w).
Proof.
  intros H. unfold get_test_query_db_ds, bind, get_self. rewrite H.
  reflexivity.
Qed.

Lemma truthy_datasel_raises_at_once_witness :
  get_test_query_db_ds Testbed.fsys (VStr "unseen_syn")
    (Testbed.dataset Testbed.cfg)
  = (inl (AttributeError "datasel"), Testbed.dataset Testbed.cfg).
Proof.
  apply truthy_datasel_raises_at_once. vm_compute. reflexivity.
Defined.

(** ** A negative [max_song] *)

Lemma slice_to_negative {A : Type} (l : list A) (n : Z) :
  n < 0 -> slice_to l n = firstn (List.length l - Z.to_nat (- n)) l.
Proof.
  intros H. unfold slice_to.
  assert (E : (0 <=? n) = false) by now apply Z.leb_gt.
  rewrite E. f_equal. lia.
Qed.

(** X4.  [get_val_ds] with a negative [max_song] raises nothing: it leaves
    out the last [-max_song] entries of the sorted pool, and returns the
    policy over the empty list when the pool has no more entries than
    that. *)
Theorem get_val_ds_negative (fsys : filesystem) (w : world) (max_song : Z) :
  max_song < 0 ->
  let pool := scan fsys w (val_pattern (self w)) in
  let files := firstn (List.length pool - Z.to_nat (- max_song)) pool in
  exists p,
    get_val_ds fsys max_song w
      = (inr p,
         stored val_source_fps (Some files) (scanned w (val_pattern (self w))))
    /\ genUnbalSequence.fns_source_event_list p = Some files
    /\ Z.of_nat (List.length files)
       = Z.max 0 (Z.of_nat (List.length pool) + max_song)
    /\ (Z.of_nat (List.length pool) <= - max_song -> files = []).
Proof.
  intros H pool files.
  assert (F : files = slice_to pool max_song)
    by (symmetry; now apply slice_to_negative).
  eexists. split; [|split; [|split]].
  - rewrite F. run_method. reflexivity.
  - rewrite F. reflexivity.
  - unfold files. rewrite length_firstn. lia.
  - intros Hn. unfold files.
    replace (List.length pool - Z.to_nat (- max_song))%nat with 0%nat by lia.
    reflexivity.
Qed.

Lemma get_val_ds_negative_witness :
  exists p,
    get_val_ds Testbed.fsys (-1) (Testbed.dataset Testbed.cfg)
      = (inr p,
         stored val_source_fps
           (Some (firstn
                    (List.length
                       (scan Testbed.fsys (Testbed.dataset Testbed.cfg)
                          (val_pattern (self (Testbed.dataset Testbed.cfg))))
                     - Z.to_nat (- -1))
                    (scan Testbed.fsys (Testbed.dataset Testbed.cfg)
                       (val_pattern (self (Testbed.dataset Testbed.cfg))))))
           (scanned (Testbed.dataset Testbed.cfg)
              (val_pattern (self (Testbed.dataset Testbed.cfg)))))
    /\ genUnbalSequence.fns_source_event_list p
       = Some (firstn
                 (List.length
                    (scan Testbed.fsys (Testbed.dataset Testbed.cfg)
                       (val_pattern (self (Testbed.dataset Testbed.cfg))))
                  - Z.to_nat (- -1))
                 (scan Testbed.fsys (Testbed.dataset Testbed.cfg)
                    (val_pattern (self (Testbed.dataset Testbed.cfg)))))
    /\ Z.of_nat
         (List.length
            (firstn
               (List.length
                  (scan Testbed.fsys (Testbed.dataset Testbed.cfg)
                     (val_pattern (self (Testbed.dataset Testbed.cfg))))
                - Z.to_nat (- -1))
               (scan Testbed.fsys (Testbed.dataset Testbed.cfg)
                  (val_pattern (self (Testbed.dataset Testbed.cfg))))))
       = Z.max 0
           (Z.of_nat
              (List.length
                 (scan Testbed.fsys (Testbed.dataset Testbed.cfg)
                    (val_pattern (self (Testbed.dataset Testbed.cfg)))))
            + -1)
    /\ (Z.of_nat
          (List.length
             (scan Testbed.fsys (Testbed.dataset Testbed.cfg)
                (val_pattern (self (Testbed.dataset Testbed.cfg)))))
        <= - -1 ->
        firstn
          (List.length
             (scan Testbed.fsys (Testbed.dataset Testbed.cfg)
                (val_pattern (self (Testbed.dataset Testbed.cfg))))
           - Z.to_nat (- -1))
          (scan Testbed.fsys (Testbed.dataset Testbed.cfg)
             (val_pattern (self (Testbed.dataset Testbed.cfg))))
        = []).
Proof.
  apply (get_val_ds_negative Testbed.fsys (Testbed.dataset Testbed.cfg) (-1)).
  vm_compute. reflexivity.
Defined.

(** ** What a call scans *)

Lemma call_patterns_attributes (d d' : Dataset) (c : call) :
  with_fps (fun _ => None) d = with_fps (fun _ => None) d' ->
  call_patterns d c = call_patterns d' c.
Proof.
  intros H. destruct d, d'. unfold with_fps in H. simpl in H.
  injection H as <-. repeat match goal with E : _ = _ |- _ => subst end.
  reflexivity.
Qed.

(** X5.  A call scans the patterns of [call_patterns], which depend on the
    configuration and the arguments only: a resolver scans its directories
    at every call, also when the list is already stored, so a second call
    scans the same patterns once more.  A call of [get_train_ds] or
    [get_test_query_db_ds] that raises has scanned nothing; a call of
    [get_test_dummy_db_ds] has scanned its pool even when it raises. *)
Theorem run_scans (fsys : filesystem) (c : call) (w : world) :
  scans (snd (run fsys c w)) = (scans w ++ call_patterns (self w) c)%list
  /\ scans (snd (run fsys c (snd (run fsys c w))))
     = (scans w ++ call_patterns (self w) c
          ++ call_patterns (self w) c)%list.
Proof.
  assert (S : forall w0,
             scans (snd (run fsys c w0))
             = (scans w0 ++ call_patterns (self w0) c)%list).
  { clear w. intros w.
    destruct c; unfold run, call_patterns, train_tag_supported.
    - run_method.
      destruct (datasel_train (self w) =? "10k_icassp")%string; simpl;
        [now rewrite <- app_assoc|].
      destruct (datasel_train (self w) =? "audible")%string; simpl;
        [now rewrite <- app_assoc | now rewrite app_nil_r].
    - run_method. reflexivity.
    - run_method.
      destruct (datasel_test_dummy_db (self w) =? "10k_full")%string; simpl;
        [reflexivity|].
      destruct (datasel_test_dummy_db (self w) =? "10k_30s")%string; simpl;
        [reflexivity|].
      destruct (datasel_test_dummy_db (self w) =? "100k_full_icassp")%string;
        simpl; [reflexivity|].
      destruct (isnumeric (datasel_test_dummy_db (self w))); reflexivity.
    - run_method. destruct (truthy datasel); simpl; [now rewrite app_nil_r|].
      destruct (datasel_test_query_db (self w) =? "unseen_icassp")%string;
        simpl; [now rewrite <- app_assoc|].
      destruct (datasel_test_query_db (self w) =? "unseen_syn")%string;
        simpl; [reflexivity | now rewrite app_nil_r].
    - run_method. destruct (is_True isdir); simpl; [reflexivity|].
      destruct (file_text fsys source); simpl; now rewrite app_nil_r. }
  split; [apply S|].
  rewrite S, S, <- app_assoc.
  rewrite (call_patterns_attributes (self (snd (run fsys c w))) (self w) c);
    [reflexivity|].
  symmetry. apply (frames_run fsys c w).
Qed.

(** Two calls of [get_val_ds] on the first sample: the pattern of the
    validation pool twice in the log. *)
Example get_val_ds_scans_again :
  skipn 9
    (scans (snd (get_val_ds Sample.fsys 500
                   (snd (get_val_ds Sample.fsys 500
                           (Sample.dataset Sample.cfg))))))
  = ["data/music/val-query-db-500-30s/**/*.wav";
     "data/music/val-query-db-500-30s/**/*.wav"].
Proof. vm_compute. reflexivity. Qed.

(** ** What a resolver leaves alone *)

(** X6.  No resolver, returning or raising, changes an attribute copied
    from the configuration or an augmentation file list: those are set by
    [__init__] only. *)
Theorem resolvers_keep_inputs (fsys : filesystem) (c : call) (w : world) :
  with_fps (fun _ => None) (self (snd (run fsys c w)))
  = with_fps (fun _ => None) (self w)
  /\ forall a, aug_attr a = true ->
               fps (self (snd (run fsys c w))) a = fps (self w) a.
Proof.
  assert (F : frames (run fsys c)).
  { destruct c; unfold run, get_train_ds, get_val_ds, get_test_dummy_db_ds,
      get_test_query_db_ds, get_custom_db_ds; repeat frames_step. }
  destruct (F w) as [H1 H2]. split.
  - now symmetry.
  - intros a Ha. symmetry. now apply H2.
Qed.

Lemma resolvers_keep_inputs_witness :
  fps (self (snd (run Testbed.fsys Call_get_test_dummy_db_ds
                    (Testbed.dataset Testbed.cfg)))) tr_bg_fps
  = fps (self (Testbed.dataset Testbed.cfg)) tr_bg_fps.
Proof.
  exact (proj2 (resolvers_keep_inputs Testbed.fsys Call_get_test_dummy_db_ds
                  (Testbed.dataset Testbed.cfg))
           tr_bg_fps eq_refl).
Defined.

(** ** The flags of the policies *)

(** X7.  Of the policies that the resolvers return, the train policy alone
    shuffles and draws random anchor offsets, and it alone is given
    [reduce_items_p], the argument of the call.  The train and validation
    policies are not given [drop_the_last_non_full_batch]; every policy of
    [get_test_dummy_db_ds], [get_test_query_db_ds] and [get_custom_db_ds]
    is given it as [False], and has the test batch size as its anchor
    count. *)
Theorem policy_flags (fsys : filesystem) (c : call) (w : world)
    (ps : list policy) (p : policy) :
  fst (run fsys c w) = inr ps ->
  In p ps ->
  match c with
  | Call_get_train_ds rp =>
      genUnbalSequence.shuffle p = true
      /\ genUnbalSequence.random_offset_anchor p = true
      /\ genUnbalSequence.reduce_items_p p = Some rp
      /\ genUnbalSequence.drop_the_last_non_full_batch p = None
  | Call_get_val_ds _ =>
      genUnbalSequence.shuffle p = false
      /\ genUnbalSequence.random_offset_anchor p = false
      /\ genUnbalSequence.reduce_items_p p = None
      /\ genUnbalSequence.drop_the_last_non_full_batch p = None
  | _ =>
      genUnbalSequence.shuffle p = false
      /\ genUnbalSequence.random_offset_anchor p = false
      /\ genUnbalSequence.reduce_items_p p = None
      /\ genUnbalSequence.drop_the_last_non_full_batch p = Some false
      /\ genUnbalSequence.n_anchor p = ts_batch_sz (self w)
  end.
Proof.
  intros H Hin.
  destruct c; unfold run in H; revert H; run_method; intros H;
    case_conditions H; try discriminate H;
    inversion H; subst ps; clear H;
    repeat (destruct Hin as [<-|Hin]; [repeat split|]);
    destruct Hin.
Qed.

Lemma policy_flags_witness :
  exists ps p,
    fst (run Testbed.fsys (Call_get_train_ds (1 # 4))
           (Testbed.dataset Testbed.cfg)) = inr ps
    /\ In p ps
    /\ genUnbalSequence.shuffle p = true
    /\ genUnbalSequence.random_offset_anchor p = true
    /\ genUnbalSequence.reduce_items_p p = Some (1 # 4)
    /\ genUnbalSequence.drop_the_last_non_full_batch p = None.
Proof.
  refine (ex_intro _ _ (ex_intro _ _ (conj _ (conj _ _)))).
  - vm_compute. reflexivity.
  - left. reflexivity.
  - eapply (policy_flags Testbed.fsys (Call_get_train_ds (1 # 4))
              (Testbed.dataset Testbed.cfg)).
    + vm_compute. reflexivity.
    + left. reflexivity.
Defined.

(** X8.  The segment duration, the hop and the sample rate of the
    configuration reach every policy unchanged. *)
Theorem timing_passed_through (fsys : filesystem) (cfg : Config) (w : world)
    (c : call) (ps : list policy) (p : policy) :
  reachable fsys cfg w ->
  fst (run fsys c w) = inr ps ->
  In p ps ->
  genUnbalSequence.duration p = DUR (MODEL cfg)
  /\ genUnbalSequence.hop p = HOP (MODEL cfg)
  /\ genUnbalSequence.fs p = FS (MODEL cfg).
Proof.
  intros R H Hin.
  pose proof (reachable_attr dur fsys cfg w R) as E1.
  pose proof (reachable_attr hop fsys cfg w R) as E2.
  pose proof (reachable_attr fs fsys cfg w R) as E3.
  simpl in E1, E2, E3. rewrite <- E1, <- E2, <- E3.
  destruct c; unfold run in H; revert H; run_method; intros H;
    case_conditions H; try discriminate H;
    inversion H; subst ps; clear H;
    repeat (destruct Hin as [<-|Hin]; [repeat split|]);
    destruct Hin.
Qed.

Lemma timing_passed_through_witness :
  exists ps p,
    fst (run Testbed.fsys (Call_get_val_ds 2)
           (Testbed.dataset Testbed.cfg)) = inr ps
    /\ In p ps
    /\ genUnbalSequence.duration p = DUR (MODEL Testbed.cfg)
    /\ genUnbalSequence.hop p = HOP (MODEL Testbed.cfg)
    /\ genUnbalSequence.fs p = FS (MODEL Testbed.cfg).
Proof.
  refine (ex_intro _ _ (ex_intro _ _ (conj _ (conj _ _)))).
  - vm_compute. reflexivity.
  - left. reflexivity.
  - eapply (timing_passed_through Testbed.fsys Testbed.cfg
              (Testbed.dataset Testbed.cfg) (Call_get_val_ds 2) _ _
              (reach_init Testbed.fsys Testbed.cfg [])).
    + vm_compute. reflexivity.
    + left. reflexivity.
Defined.

(** ** The train partition *)

(** X9.  [get_train_ds] checks the train tag and does nothing else with
    it: under either supported tag it returns the policy over the sorted
    scan of the whole source root and the sorted scan of the whole mix
    root, made in this order and stored in [tr_source_fps] and
    [tr_mix_fps]; the policies under the two tags are the same. *)
Theorem get_train_ds_ignores_tag (fsys : filesystem) (rp : Q) (w : world)
    (tag tag' : string) :
  train_tag_supported tag = true ->
  train_tag_supported tag' = true ->
  let at_tag t := {| self := with_datasel_train t (self w);
                     scans := scans w |} in
  let sources := scan fsys w (train_source_pattern (self w)) in
  let mixes := scan fsys (scanned w (train_source_pattern (self w)))
                 (train_mix_pattern (self w)) in
  fst (get_train_ds fsys rp (at_tag tag))
  = fst (get_train_ds fsys rp (at_tag tag'))
  /\ exists p w',
       get_train_ds fsys rp (at_tag tag) = (inr p, w')
       /\ genUnbalSequence.fns_source_event_list p = Some sources
       /\ genUnbalSequence.fns_mix_event_list p = Some (Some mixes)
       /\ fps (self w') tr_source_fps = Some sources
       /\ fps (self w') tr_mix_fps = Some mixes.
Proof.
  intros H H' at_tag sources mixes.
  assert (R : forall t,
             train_tag_supported t = true ->
             exists p w',
               get_train_ds fsys rp (at_tag t) = (inr p, w')
               /\ p = {| genUnbalSequence.fns_source_event_list :=
                           Some sources;
                         genUnbalSequence.fns_mix_event_list :=
                           Some (Some mixes);
                         genUnbalSequence.bsz := tr_batch_sz (self w);
                         genUnbalSequence.n_anchor := tr_n_anchor (self w);
                         genUnbalSequence.duration := dur (self w);
                         genUnbalSequence.hop := hop (self w);
                         genUnbalSequence.fs := fs (self w);
                         genUnbalSequence.shuffle := true;
                         genUnbalSequence.random_offset_anchor := true;
                         genUnbalSequence.bg_mix_parameter :=
                           Some (mix3 (tr_use_bg_aug (self w))
                                   (fps (self w) tr_bg_fps) (tr_snr (self w)));
                         genUnbalSequence.ir_mix_parameter :=
                           Some (mix2 (tr_use_ir_aug (self w))
                                   (fps (self w) tr_ir_fps));
                         genUnbalSequence.speech_mix_parameter :=
                           Some (mix3 (tr_use_speech_aug (self w))
                                   (fps (self w) tr_speech_fps)
                                   (tr_snr (self w)));
                         genUnbalSequence.reduce_items_p := Some rp;
                         genUnbalSequence.reduce_batch_first_half := None;
                         genUnbalSequence.drop_the_last_non_full_batch :=
                           None |}
               /\ fps (self w') tr_source_fps = Some sources
               /\ fps (self w') tr_mix_fps = Some mixes).
  { intros t Ht. unfold train_tag_supported in Ht.
    do 2 eexists. split.
    { run_method.
      destruct (t =? "10k_icassp")%string; [reflexivity|].
      simpl in Ht. rewrite Ht. reflexivity. }
    split; [reflexivity | split; reflexivity]. }
  destruct (R tag H) as (p & w1 & E & Ep & Es & Em).
  destruct (R tag' H') as (p' & w1' & E' & Ep' & _).
  split.
  - rewrite E, E'. simpl. now rewrite Ep, Ep'.
  - exists p, w1. rewrite Ep at 2 3. simpl. auto.
Qed.

Lemma get_train_ds_ignores_tag_witness :
  fst (get_train_ds Testbed.fsys 0
         {| self := with_datasel_train "10k_icassp"
                      (self (Testbed.dataset Testbed.cfg));
            scans := scans (Testbed.dataset Testbed.cfg) |})
  = fst (get_train_ds Testbed.fsys 0
           {| self := with_datasel_train "audible"
                        (self (Testbed.dataset Testbed.cfg));
              scans := scans (Testbed.dataset Testbed.cfg) |}).
Proof.
  exact (proj1 (get_train_ds_ignores_tag Testbed.fsys 0
                  (Testbed.dataset Testbed.cfg) "10k_icassp" "audible"
                  eq_refl eq_refl)).
Defined.

(** ** Manifests *)

Lemma string_app_assoc (a b c : string) : (a ++ b) ++ c = a ++ (b ++ c).
Proof. induction a as [|x a IH]; simpl; [reflexivity | now rewrite IH]. Qed.

Lemma before_newline_line (l rest : string) :
  no_newline l = true -> before_newline (l ++ String "010" rest) = l.
Proof.
  induction l as [|c l IH]; simpl; [reflexivity|].
  intros H. apply andb_prop in H. destruct H as [Hc Hl].
  apply negb_true_iff in Hc. rewrite Hc. now rewrite IH.
Qed.

Lemma file_lines_from_line (l rest cur : string) :
  no_newline l = true ->
  file_lines_from (l ++ String "010" rest) cur
  = (cur ++ l ++ String "010" EmptyString) :: file_lines_from rest EmptyString.
Proof.
  revert cur. induction l as [|c l IH]; intros cur H; simpl.
  - reflexivity.
  - simpl in H. apply andb_prop in H. destruct H as [Hc Hl].
    apply negb_true_iff in Hc. rewrite Hc.
    rewrite IH by exact Hl. now rewrite string_app_assoc.
Qed.

Lemma file_lines_manifest_text (paths : list string) :
  forallb no_newline paths = true ->
  map before_newline (file_lines (manifest_text paths)) = paths.
Proof.
  unfold file_lines. induction paths as [|p rest IH]; simpl;
    [reflexivity|].
  intros H. apply andb_prop in H. destruct H as [Hp Hr].
  rewrite file_lines_from_line by exact Hp. simpl.
  rewrite before_newline_line by exact Hp. now rewrite IH.
Qed.

(** X10.  A manifest that holds [n] paths, each followed by a line feed,
    resolves to these [n] paths in sorted order, the line feeds taken off:
    nothing is dropped and nothing added.  A blank line is a path like
    another, the empty string. *)
Theorem manifest_round_trip (fsys : filesystem) (source : string)
    (isdir : value) (w : world) (paths : list string) :
  is_True isdir = false ->
  forallb no_newline paths = true ->
  file_text fsys source = Text (manifest_text paths) ->
  get_custom_db_ds fsys source isdir w
    = (inr (plain_call (self w) (Some (sorted paths))
              (ts_batch_sz (self w)) (ts_batch_sz (self w))), w)
  /\ Permutation paths (sorted paths)
  /\ List.length (sorted paths) = List.length paths
  /\ StronglySorted str_le (sorted paths).
Proof.
  intros Hd Hp Hf. repeat apply conj.
  - run_method. rewrite Hd, Hf. simpl.
    rewrite file_lines_manifest_text by exact Hp. reflexivity.
  - apply sorted_Permutation.
  - apply sorted_length.
  - apply sorted_StronglySorted.
Qed.

Lemma manifest_round_trip_witness :
  get_custom_db_ds Testbed.fsys "list.txt" (VBool false)
    (Testbed.dataset Testbed.cfg)
  = (inr (plain_call (self (Testbed.dataset Testbed.cfg))
            (Some (sorted ["b.wav"; ""; "a.wav"]))
            (ts_batch_sz (self (Testbed.dataset Testbed.cfg)))
            (ts_batch_sz (self (Testbed.dataset Testbed.cfg)))),
     Testbed.dataset Testbed.cfg).
Proof.
  apply (manifest_round_trip Testbed.fsys "list.txt" (VBool false)
           (Testbed.dataset Testbed.cfg) ["b.wav"; ""; "a.wav"]).
  - reflexivity.
  - reflexivity.
  - reflexivity.
Defined.

(** The manifest with a blank line: three entries, the empty string
    first. *)
Example manifest_with_blank_line :
  option_map genUnbalSequence.fns_source_event_list
    (match fst (get_custom_db_ds Testbed.fsys "list.txt" (VBool false)
                  (Testbed.dataset Testbed.cfg)) with
     | inr p => Some p
     | inl _ => None
     end)
  = Some (Some [""; "a.wav"; "b.wav"]).
Proof. vm_compute. reflexivity. Qed.

Lemma string_app_nil_r (a : string) : a ++ EmptyString = a.
Proof. induction a as [|x a IH]; simpl; [reflexivity | now rewrite IH]. Qed.

Lemma before_newline_no_newline (l : string) :
  no_newline l = true -> before_newline l = l.
Proof.
  induction l as [|c l IH]; simpl; [reflexivity|].
  intros H. apply andb_prop in H. destruct H as [Hc Hl].
  apply negb_true_iff in Hc. rewrite Hc. now rewrite IH.
Qed.

Lemma file_lines_from_last (c : ascii) (l cur : string) :
  no_newline (String c l) = true ->
  file_lines_from (String c l) cur = [cur ++ String c l].
Proof.
  revert c cur. induction l as [|c' l IH]; intros c cur H; simpl in *.
  - apply andb_prop in H. destruct H as [Hc _].
    apply negb_true_iff in Hc. rewrite Hc.
    destruct cur; reflexivity.
  - apply andb_prop in H. destruct H as [Hc Hl].
    apply negb_true_iff in Hc. rewrite Hc.
    specialize (IH c' (cur ++ String c EmptyString) Hl).
    simpl in IH. rewrite IH. now rewrite string_app_assoc.
Qed.

Lemma file_lines_from_manifest_then (paths : list string) (c : ascii)
    (l : string) :
  forallb no_newline paths = true ->
  no_newline (String c l) = true ->
  map before_newline
    (file_lines_from (manifest_text paths ++ String c l) EmptyString)
  = (paths ++ [String c l])%list.
Proof.
  intros Hp Hl. induction paths as [|p rest IH].
  - cbn [manifest_text String.append app].
    rewrite file_lines_from_last by exact Hl. cbn [map String.append].
    now rewrite before_newline_no_newline.
  - cbn [forallb] in Hp. apply andb_prop in Hp. destruct Hp as [Hp Hr].
    cbn [manifest_text]. rewrite string_app_assoc.
    change ((String "010" (manifest_text rest)) ++ String c l)
      with (String "010" (manifest_text rest ++ String c l)).
    rewrite file_lines_from_line by exact Hp. cbn [map app String.append].
    rewrite before_newline_line by exact Hp. now rewrite IH.
Qed.

(** X11.  A last line without its line feed is an entry all the same: a
    manifest of [n] terminated paths followed by one unterminated,
    non-empty path resolves to the [n + 1] paths, sorted. *)
Theorem manifest_unterminated_last_line (fsys : filesystem) (source : string)
    (isdir : value) (w : world) (paths : list string) (last : string) :
  is_True isdir = false ->
  forallb no_newline paths = true ->
  no_newline last = true ->
  last <> EmptyString ->
  file_text fsys source = Text (manifest_text paths ++ last) ->
  get_custom_db_ds fsys source isdir w
    = (inr (plain_call (self w) (Some (sorted (paths ++ [last])%list))
              (ts_batch_sz (self w)) (ts_batch_sz (self w))), w)
  /\ List.length (sorted (paths ++ [last])%list) = S (List.length paths).
Proof.
  intros Hd Hp Hl Hn Hf. destruct last as [|c l]; [congruence|].
  split.
  - run_method. rewrite Hd, Hf. simpl. unfold file_lines.
    rewrite file_lines_from_manifest_then by assumption. reflexivity.
  - rewrite sorted_length, length_app. simpl. lia.
Qed.


Lemma manifest_unterminated_last_line_witness :
  get_custom_db_ds Testbed.fsys "open.txt" (VBool false)
    (Testbed.dataset Testbed.cfg)
  = (inr (plain_call (self (Testbed.dataset Testbed.cfg))
            (Some (sorted (["b.wav"] ++ ["a.wav"])%list))
            (ts_batch_sz (self (Testbed.dataset Testbed.cfg)))
            (ts_batch_sz (self (Testbed.dataset Testbed.cfg)))),
     Testbed.dataset Testbed.cfg).
Proof.
  apply (manifest_unterminated_last_line Testbed.fsys "open.txt"
           (VBool false) (Testbed.dataset Testbed.cfg) ["b.wav"] "a.wav").
  - reflexivity.
  - reflexivity.
  - reflexivity.
  - discriminate.
  - reflexivity.
Defined.

(** ** The augmentation file lists *)

Lemma fps_after_scan_if_same fsys t a pat w :
  fps (self (after_scan_if fsys t a pat w)) a
  = if t then Some (scan fsys w pat) else fps (self w) a.
Proof.
  destruct t; [|reflexivity].
  unfold after_scan_if, stored, scanned, set_fps, with_fps.
  cbn [self fps]. destruct (fps_attr_eq_dec a a); congruence.
Qed.

Section AugmentationLists.

Variable fsys : filesystem.
Hypothesis fsys_unchanged : unchanged fsys.
Variable cfg : Config.

Lemma __init___aug_lists (a : fps_attr) :
  aug_attr a = true ->
  fps (self (snd (__init__ fsys cfg []))) a
  = if guard cfg a then Some (pool fsys (aug_pattern cfg a)) else None.
Proof.
  intros Ha. rewrite __init___run. cbn [snd].
  rewrite fps_source_None by exact Ha.
  unfold after_set_augmentation_fps. cbv zeta.
  set (w0 := aug_None _).
  assert (B : bg_root_dir (self w0) = BG_ROOT_DIR (DIR cfg)) by reflexivity.
  assert (I : ir_root_dir (self w0) = IR_ROOT_DIR (DIR cfg)) by reflexivity.
  assert (S : speech_root_dir (self w0) = SPEECH_ROOT_DIR (DIR cfg))
    by reflexivity.
  assert (T1 : tr_use_bg_aug (self w0) = TR_BG_AUG (TD_AUG cfg))
    by reflexivity.
  assert (T2 : ts_use_bg_aug (self w0) = TS_BG_AUG (TD_AUG cfg))
    by reflexivity.
  assert (T3 : val_use_bg_aug (self w0) = VAL_BG_AUG (TD_AUG cfg))
    by reflexivity.
  assert (T4 : tr_use_ir_aug (self w0) = TR_IR_AUG (TD_AUG cfg))
    by reflexivity.
  assert (T5 : ts_use_ir_aug (self w0) = TS_IR_AUG (TD_AUG cfg))
    by reflexivity.
  assert (T6 : val_use_ir_aug (self w0) = VAL_IR_AUG (TD_AUG cfg))
    by reflexivity.
  assert (T7 : tr_use_speech_aug (self w0) = TR_SPEECH_AUG (TD_AUG cfg))
    by reflexivity.
  assert (T8 : val_use_speech_aug (self w0) = VAL_SPEECH_AUG (TD_AUG cfg))
    by reflexivity.
  assert (N : forall b, fps (self w0) b = None)
    by (intros b; destruct b; reflexivity).
  rewrite B, I, S, T1, T2, T3, T4, T5, T6, T7, T8. clearbody w0.
  destruct a; try discriminate Ha; clear Ha;
    rewrite ?fps_after_scan_if by discriminate;
    rewrite fps_after_scan_if_same;
    rewrite ?fps_after_scan_if by discriminate;
    rewrite ?N, ?scan_pool by exact fsys_unchanged;
    reflexivity.
Qed.

End AugmentationLists.

(** X12.  On an unchanged file system, in every state of a selector, each
    augmentation file list is the sorted content of its directory when its
    toggle is on and [None] when it is off; [ts_speech_fps] is the sorted
    content of the [test] directory of the speech root in either case.
    The validation lists of background noise and impulse responses are
    read from the [tr] directories: with both toggles on they are the
    training lists. *)
Theorem augmentation_lists (fsys : filesystem) (cfg : Config) (w : world) :
  unchanged fsys ->
  reachable fsys cfg w ->
  (forall a, aug_attr a = true ->
             fps (self w) a
             = if guard cfg a
               then Some (pool fsys (aug_pattern cfg a)) else None)
  /\ (TR_BG_AUG (TD_AUG cfg) = VAL_BG_AUG (TD_AUG cfg) ->
      fps (self w) val_bg_fps = fps (self w) tr_bg_fps)
  /\ (TR_IR_AUG (TD_AUG cfg) = VAL_IR_AUG (TD_AUG cfg) ->
      fps (self w) val_ir_fps = fps (self w) tr_ir_fps).
Proof.
  intros U R.
  assert (A : forall a, aug_attr a = true ->
                        fps (self w) a
                        = if guard cfg a
                          then Some (pool fsys (aug_pattern cfg a))
                          else None).
  { intros a Ha.
    destruct (reachable_same_inputs fsys U cfg w R) as [_ E].
    rewrite <- (E a Ha). now apply __init___aug_lists. }
  split; [exact A|]. split; intros E.
  - rewrite (A val_bg_fps eq_refl), (A tr_bg_fps eq_refl). simpl.
    now rewrite E.
  - rewrite (A val_ir_fps eq_refl), (A tr_ir_fps eq_refl). simpl.
    now rewrite E.
Qed.

Lemma Testbed_fsys_unchanged : unchanged Testbed.fsys.
Proof.
  intros k k' pat. simpl.
  destruct (Nat.even k), (Nat.even k');
    auto using Permutation_refl, Permutation_rev, Permutation_sym.
Qed.

Lemma augmentation_lists_witness :
  fps (self (Testbed.dataset Testbed.cfg)) val_bg_fps
  = fps (self (Testbed.dataset Testbed.cfg)) tr_bg_fps.
Proof.
  exact (proj1 (proj2 (augmentation_lists Testbed.fsys Testbed.cfg
                         (Testbed.dataset Testbed.cfg)
                         Testbed_fsys_unchanged
                         (reach_init Testbed.fsys Testbed.cfg [])))
           eq_refl).
Defined.

(** ** What construction scans *)

Lemma extends_by_refl {A : Type} (P : A -> Prop) (l : list A) :
  extends_by P l l.
Proof. exists []. split; [now rewrite app_nil_r | constructor]. Qed.

Lemma extends_by_trans {A : Type} (P : A -> Prop) (a b c : list A) :
  extends_by P a b -> extends_by P b c -> extends_by P a c.
Proof.
  intros (l & -> & Hl) (l' & -> & Hl'). exists (l ++ l')%list. split.
  - now rewrite app_assoc.
  - apply Forall_app. now split.
Qed.

Lemma scans_after_scan_if_by (P : string -> Prop) fsys t a pat w :
  (t = true -> P pat) ->
  extends_by P (scans w) (scans (after_scan_if fsys t a pat w)).
Proof.
  intros H. destruct t; [|apply extends_by_refl].
  exists [pat]. split; [reflexivity|]. constructor; [now apply H | constructor].
Qed.

(** X13.  [Dataset(cfg)] never raises.  Every scan it makes is the scan of
    an augmentation directory whose toggle is on, or that of the test
    speech directory; it scans no source directory, and leaves the eight
    source file lists [None] for the resolvers to fill. *)
Theorem construction_scans (fsys : filesystem) (cfg : Config)
    (log : list string) :
  fst (__init__ fsys cfg log) = inr tt
  /\ extends_by
       (fun pat => exists a, aug_attr a = true /\ guard cfg a = true
                             /\ pat = aug_pattern cfg a)
       log (scans (snd (__init__ fsys cfg log)))
  /\ forall a, aug_attr a = false ->
               fps (self (snd (__init__ fsys cfg log))) a = None.
Proof.
  rewrite __init___run. cbn [fst snd]. split; [reflexivity|]. split.
  - rewrite scans_source_None.
    unfold after_set_augmentation_fps. cbv zeta.
    set (w0 := aug_None _).
    assert (L : scans w0 = log) by reflexivity.
    assert (B : bg_root_dir (self w0) = BG_ROOT_DIR (DIR cfg)) by reflexivity.
    assert (I : ir_root_dir (self w0) = IR_ROOT_DIR (DIR cfg)) by reflexivity.
    assert (S : speech_root_dir (self w0) = SPEECH_ROOT_DIR (DIR cfg))
      by reflexivity.
    assert (T1 : tr_use_bg_aug (self w0) = TR_BG_AUG (TD_AUG cfg))
      by reflexivity.
    assert (T2 : ts_use_bg_aug (self w0) = TS_BG_AUG (TD_AUG cfg))
      by reflexivity.
    assert (T3 : val_use_bg_aug (self w0) = VAL_BG_AUG (TD_AUG cfg))
      by reflexivity.
    assert (T4 : tr_use_ir_aug (self w0) = TR_IR_AUG (TD_AUG cfg))
      by reflexivity.
    assert (T5 : ts_use_ir_aug (self w0) = TS_IR_AUG (TD_AUG cfg))
      by reflexivity.
    assert (T6 : val_use_ir_aug (self w0) = VAL_IR_AUG (TD_AUG cfg))
      by reflexivity.
    assert (T7 : tr_use_speech_aug (self w0) = TR_SPEECH_AUG (TD_AUG cfg))
      by reflexivity.
    assert (T8 : val_use_speech_aug (self w0) = VAL_SPEECH_AUG (TD_AUG cfg))
      by reflexivity.
    rewrite B, I, S, T1, T2, T3, T4, T5, T6, T7, T8, <- L. clearbody w0.
    repeat (eapply extends_by_trans;
            [|apply scans_after_scan_if_by; intros Ht]);
      [apply extends_by_refl | ..].
    + exists tr_bg_fps. repeat split. exact Ht.
    + exists ts_bg_fps. repeat split. exact Ht.
    + exists val_bg_fps. repeat split. exact Ht.
    + exists tr_ir_fps. repeat split. exact Ht.
    + exists ts_ir_fps. repeat split. exact Ht.
    + exists val_ir_fps. repeat split. exact Ht.
    + exists tr_speech_fps. repeat split. exact Ht.
    + exists ts_speech_fps. repeat split.
    + exists val_speech_fps. repeat split. exact Ht.
  - intros a Ha. destruct a; try discriminate Ha; reflexivity.
Qed.

Lemma construction_scans_witness :
  fps (self (snd (__init__ Testbed.fsys Testbed.cfg []))) tr_source_fps
  = None.
Proof.
  exact (proj2 (proj2 (construction_scans Testbed.fsys Testbed.cfg []))
           tr_source_fps eq_refl).
Defined.

(** With the background toggles on and the others off, [Dataset(cfg)]
    scans the [tr], [ts] and [tr] directories of the background root and
    the [test] directory of the speech root, and nothing else. *)
Example construction_scans_sample :
  scans (Testbed.dataset Testbed.cfg)
  = ["data/aug/bg/tr/**/*.wav"; "data/aug/bg/ts/**/*.wav";
     "data/aug/bg/tr/**/*.wav"; "data/aug/speech/test/**/*.wav"].
Proof. vm_compute. reflexivity. Qed.

(** ** What a resolver reads *)

(** X14.  No resolver reads a file list stored by an earlier call, nor the
    list [ts_speech_fps]: whatever such an attribute holds when the call
    is made, the call returns the same policies or raises the same
    exception.  (Each resolver reads the source lists it has just stored,
    and the augmentation lists of its split; the list scanned for test
    speech reaches no policy.) *)
Theorem stored_lists_not_read (fsys : filesystem) (c : call) (w : world)
    (a : fps_attr) (v : option (list string)) :
  aug_attr a = false \/ a = ts_speech_fps ->
  fst (run fsys c (stored a v w)) = fst (run fsys c w).
Proof.
  intros H.
  assert (Ha : match a with
               | tr_bg_fps | ts_bg_fps | val_bg_fps | tr_ir_fps | ts_ir_fps
               | val_ir_fps | tr_speech_fps | val_speech_fps => False
               | _ => True
               end).
  { destruct H as [H| ->]; [|exact I].
    destruct a; try discriminate H; exact I. }
  clear H.
  destruct a; try contradiction; clear Ha;
    destruct c; unfold run; run_method; case_goal; reflexivity.
Qed.

Lemma stored_lists_not_read_witness :
  fst (run Testbed.fsys (Call_get_test_query_db_ds VNone)
         (stored ts_speech_fps None (Testbed.dataset Testbed.cfg)))
  = fst (run Testbed.fsys (Call_get_test_query_db_ds VNone)
           (Testbed.dataset Testbed.cfg)).
Proof.
  apply stored_lists_not_read. right. reflexivity.
Defined.

